(** * chirpy_server: the request pipeline of [main.go], embedded and verified

    The development follows the Go source:
    - Go strings are byte sequences; they are Rocq [string]s, one [ascii] per byte;
    - the pieces of the Go standard library that [cleanProfanity] calls
      ([strings.Split], [strings.ToLower], [strings.Join], and the UTF-8
      machinery behind them) are modelled in [Utf8] and [GoStrings];
    - handlers are programs of a small free monad whose events are the
      operations on the hit counter and the calls to the outside world
      (the sqlc query layer, [uuid.New], [time.Now], the log, the file server). *)

From Stdlib Require Import ZArith Ascii String DecimalString DecimalPos DecimalZ Lia.
From stdpp Require Import base list strings.

#[local] Set Default Proof Using "Type".

Local Open Scope string_scope.
Local Open Scope list_scope.
Local Open Scope Z_scope.

(** ** Bytes *)

(** The numeric value of a byte of a Go string. *)
Definition byte_val (c : ascii) : Z := Z.of_N (N_of_ascii c).

(** Go's conversion [byte(x)]: the low eight bits. *)
Definition byte_of (z : Z) : ascii := ascii_of_N (Z.to_N (z mod 256)).

(** [s[i]], with 0 out of range (the callers check the length first). *)
Definition byte_at (s : string) (i : nat) : Z :=
  match String.get i s with
  | Some c => byte_val c
  | None => 0
  end.

(** [len(s) ], the number of bytes. *)
Definition len (s : string) : Z := Z.of_nat (String.length s).

(** ** Package unicode/utf8 *)
Module Utf8.

Definition RuneError : Z := 0xFFFD.
Definition RuneSelf : Z := 0x80.
Definition MaxRune : Z := 0x10FFFF.
Definition surrogateMin : Z := 0xD800.
Definition surrogateMax : Z := 0xDFFF.

Definition tx : Z := 0x80.
Definition t2 : Z := 0xC0.
Definition t3 : Z := 0xE0.
Definition t4 : Z := 0xF0.
Definition maskx : Z := 0x3F.
Definition mask2 : Z := 0x1F.
Definition mask3 : Z := 0x0F.
Definition mask4 : Z := 0x07.
Definition rune1Max : Z := 0x7F.
Definition rune2Max : Z := 0x7FF.
Definition rune3Max : Z := 0xFFFF.
Definition locb : Z := 0x80.
Definition hicb : Z := 0xBF.

(** Entries of the table [first]: the high nibble indexes [acceptRanges],
    the low three bits are the size of the encoding. *)
Definition xx : Z := 0xF1.
Definition as_ : Z := 0xF0.
Definition s1 : Z := 0x02.
Definition s2 : Z := 0x13.
Definition s3 : Z := 0x03.
Definition s4 : Z := 0x23.
Definition s5 : Z := 0x34.
Definition s6 : Z := 0x04.
Definition s7 : Z := 0x44.

(** The 256-entry table [first], by ranges of the first byte. *)
Definition first (b : Z) : Z :=
  if b <? 0x80 then as_
  else if b <? 0xC2 then xx
  else if b <? 0xE0 then s1
  else if b =? 0xE0 then s2
  else if b <? 0xED then s3
  else if b =? 0xED then s4
  else if b <? 0xF0 then s3
  else if b =? 0xF0 then s5
  else if b <? 0xF4 then s6
  else if b =? 0xF4 then s7
  else xx.

(** [acceptRanges]: the bounds on the second byte. *)
Definition acceptRanges (i : Z) : Z * Z :=
  if i =? 0 then (locb, hicb)
  else if i =? 1 then (0xA0, hicb)
  else if i =? 2 then (locb, 0x9F)
  else if i =? 3 then (0x90, hicb)
  else if i =? 4 then (locb, 0x8F)
  else (0, 0).

(** [utf8.DecodeRuneInString]: the first rune of [s] and its width in bytes;
    [(RuneError, 1)] on an invalid encoding, [(RuneError, 0)] on the empty string. *)
Definition DecodeRuneInString (s : string) : Z * nat :=
  let n := len s in
  if n <? 1 then (RuneError, 0%nat) else
  let b0 := byte_at s 0 in
  let x := first b0 in
  if as_ <=? x then
    (* mask := rune(x) << 31 >> 31 is all ones exactly when x is odd (x = xx) *)
    (if Z.testbit x 0 then RuneError else b0, 1%nat)
  else
    let sz := Z.land x 7 in
    let accept := acceptRanges (Z.shiftr x 4) in
    if n <? sz then (RuneError, 1%nat) else
    let b1 := byte_at s 1 in
    if (b1 <? accept.1) || (accept.2 <? b1) then (RuneError, 1%nat) else
    if sz <=? 2 then
      (Z.lor (Z.shiftl (Z.land b0 mask2) 6) (Z.land b1 maskx), 2%nat)
    else
    let b2 := byte_at s 2 in
    if (b2 <? locb) || (hicb <? b2) then (RuneError, 1%nat) else
    if sz <=? 3 then
      (Z.lor (Z.lor (Z.shiftl (Z.land b0 mask3) 12) (Z.shiftl (Z.land b1 maskx) 6))
             (Z.land b2 maskx), 3%nat)
    else
    let b3 := byte_at s 3 in
    if (b3 <? locb) || (hicb <? b3) then (RuneError, 1%nat) else
    (Z.lor (Z.lor (Z.lor (Z.shiftl (Z.land b0 mask4) 18) (Z.shiftl (Z.land b1 maskx) 12))
                  (Z.shiftl (Z.land b2 maskx) 6))
           (Z.land b3 maskx), 4%nat).

(** [for _, c := range s]: the runes of [s] in order. [skip] counts the bytes
    of the current rune that are still to be stepped over. *)
Fixpoint rangeString (skip : nat) (s : string) : list Z :=
  match s with
  | EmptyString => []
  | String _ rest =>
    match skip with
    | S k => rangeString k rest
    | O => let '(r, size) := DecodeRuneInString s in
           r :: rangeString (size - 1) rest
    end
  end.

(** [utf8.RuneCountInString]: invalid bytes count as one rune each. *)
Definition RuneCountInString (s : string) : Z :=
  Z.of_nat (length (rangeString 0 s)).

Definition bytes3 (r : Z) : string :=
  String (byte_of (Z.lor t3 (Z.shiftr r 12 mod 256)))
    (String (byte_of (Z.lor tx (Z.land (Z.shiftr r 6 mod 256) maskx)))
      (String (byte_of (Z.lor tx (Z.land (r mod 256) maskx))) "")).

(** [utf8.AppendRune] on an empty buffer: the UTF-8 encoding of [r]; runes
    out of range and surrogates are written as [RuneError]. *)
Definition EncodeRune (r : Z) : string :=
  let i := r mod 2 ^ 32 in (* uint32(r) *)
  if i <=? rune1Max then String (byte_of r) ""
  else if i <=? rune2Max then
    String (byte_of (Z.lor t2 (Z.shiftr r 6 mod 256)))
      (String (byte_of (Z.lor tx (Z.land (r mod 256) maskx))) "")
  else if (MaxRune <? i) || ((surrogateMin <=? i) && (i <=? surrogateMax)) then
    bytes3 RuneError
  else if i <=? rune3Max then bytes3 r
  else
    String (byte_of (Z.lor t4 (Z.shiftr r 18 mod 256)))
      (String (byte_of (Z.lor tx (Z.land (Z.shiftr r 12 mod 256) maskx)))
        (String (byte_of (Z.lor tx (Z.land (Z.shiftr r 6 mod 256) maskx)))
          (String (byte_of (Z.lor tx (Z.land (r mod 256) maskx))) ""))).

End Utf8.

(** ** Package strings *)
Module GoStrings.

Section WithCaseTable.

(** [unicode.To(unicode.LowerCase, r)] for a rune above ASCII: the lookup in
    the table [unicode.CaseRanges], which is data of the Go distribution. *)
Variable lowerCase : Z -> Z.

(** [unicode.ToLower]. *)
Definition unicode_ToLower (r : Z) : Z :=
  if r <=? 0x7F then
    (if (0x41 <=? r) && (r <=? 0x5A) then r + (0x61 - 0x41) else r)
  else lowerCase r.

(** [strings.Map]: every rune of [s] replaced by its image, a negative image
    dropping the rune. *)
Definition Map (mapping : Z -> Z) (s : string) : string :=
  foldr (fun c out => let r := mapping c in
                      if 0 <=? r then Utf8.EncodeRune r +:+ out else out)
        "" (Utf8.rangeString 0 s).

(** The first loop of [strings.ToLower]: no byte at or above [utf8.RuneSelf]. *)
Fixpoint isASCII (s : string) : bool :=
  match s with
  | EmptyString => true
  | String c rest => if Utf8.RuneSelf <=? byte_val c then false else isASCII rest
  end.

(** The ASCII path of [strings.ToLower]: ['A'..'Z'] moved by ['a' - 'A']. *)
Fixpoint lowerASCII (s : string) : string :=
  match s with
  | EmptyString => EmptyString
  | String c rest =>
    let b := byte_val c in
    String (if (0x41 <=? b) && (b <=? 0x5A) then byte_of (b + (0x61 - 0x41)) else c)
           (lowerASCII rest)
  end.

(** [strings.ToLower]. *)
Definition ToLower (s : string) : string :=
  if isASCII s then lowerASCII s else Map unicode_ToLower s.

End WithCaseTable.

(** [strings.Split(s, sep)] for a separator of one byte (the program only
    splits on [" "]): the pieces of [s] between the occurrences of [sep];
    never the empty list. *)
Fixpoint Split (s : string) (sep : ascii) : list string :=
  match s with
  | EmptyString => [EmptyString]
  | String c rest =>
    if Ascii.eqb c sep then EmptyString :: Split rest sep
    else match Split rest sep with
         | w :: ws => String c w :: ws
         | [] => [String c EmptyString]
         end
  end.

(** [strings.Join]: the first element, then separator and element in turn. *)
Fixpoint joinRest (elems : list string) (sep : string) : string :=
  match elems with
  | [] => EmptyString
  | e :: rest => sep +:+ e +:+ joinRest rest sep
  end.

Definition Join (elems : list string) (sep : string) : string :=
  match elems with
  | [] => EmptyString
  | e :: rest => e +:+ joinRest rest sep
  end.

End GoStrings.

(** ** The moderator: [cleanProfanity] *)

Definition profaneWords : list string := ["kerfuffle"; "sharbert"; "fornax"].

(** The inner loop: [true] when some entry equals [wordLower] (the loop then
    assigns the mask and breaks). *)
Fixpoint matchesProfane (wordLower : string) (profane : list string) : bool :=
  match profane with
  | [] => false
  | p :: rest => if String.eqb wordLower p then true else matchesProfane wordLower rest
  end.

Section Moderation.

Variable lowerCase : Z -> Z.

(** One iteration of [for i, word := range words]. *)
Definition cleanStep (words : list string) (i : nat) : list string :=
  match words !! i with
  | Some word =>
    let wordLower := GoStrings.ToLower lowerCase word in
    if matchesProfane wordLower profaneWords then <[i := "****"]> words else words
  | None => words
  end.

Definition cleanWords (words : list string) : list string :=
  foldl cleanStep words (seq 0 (length words)).

Definition cleanProfanity (input : string) : string :=
  let words := GoStrings.Split input " " in
  GoStrings.Join (cleanWords words) " ".

End Moderation.


(** The moderator in the words of its contract: split on single spaces, mask
    every token whose lower-cased form is in the denylist, rejoin. *)
Definition maskToken (lowerCase : Z -> Z) (tok : string) : string :=
  if decide (GoStrings.ToLower lowerCase tok ∈ profaneWords) then "****" else tok.

Definition moderate_spec (lowerCase : Z -> Z) (text : string) : string :=
  GoStrings.Join (maskToken lowerCase <$> GoStrings.Split text " ") " ".

(** [sep] occurs in [s]. *)
Fixpoint hasByte (sep : ascii) (s : string) : bool :=
  match s with
  | EmptyString => false
  | String c rest => if Ascii.eqb c sep then true else hasByte sep rest
  end.

(** ** Values of the program *)

(** [uuid.UUID], an array of sixteen bytes. *)
Record UUID := { uuid_bytes : string }.

(** The zero value of [uuid.UUID]. *)
Definition uuid_Nil : UUID :=
  {| uuid_bytes := string_of_list_ascii (repeat Ascii.zero 16) |}.

(** [time.Time]: an instant, counted in nanoseconds. *)
Definition Time : Type := Z.

(** The values of Go's interface [error] that the program can meet. *)
Inductive error : Type :=
| sql_ErrNoRows
| io_EOF
| json_SyntaxError
| json_UnmarshalTypeError (value : string)
| uuid_ParseError
| other_error (msg : string).

(** A Go result pair [(T, error)]. *)
Inductive result (T : Type) : Type :=
| Ok (v : T)
| Err (e : error).
Arguments Ok {T} v.
Arguments Err {T} e.

(** A JSON value. *)
#[local] Unset Elimination Schemes.
Inductive json : Type :=
| JNull
| JBool (b : bool)
| JNumber (literal : string)
| JString (s : string)
| JArray (elems : list json)
| JObject (members : list (string * json)).
#[local] Set Elimination Schemes.

Record ErrorResponse := { Error : string }.

Record User := {
  User_ID : UUID;
  User_CreatedAt : Time;
  User_UpdatedAt : Time;
  User_Email : string
}.

Record UserRequest := { UserRequest_Email : string }.

Record Chirp := {
  Chirp_ID : UUID;
  Chirp_CreatedAt : Time;
  Chirp_UpdatedAt : Time;
  Chirp_Body : string;
  Chirp_UserID : UUID
}.

Record CreateChirpRequest := {
  CreateChirpRequest_Body : string;
  CreateChirpRequest_UserID : UUID
}.

Module database.

(** Modelled from the spec: the row and parameter structs of package
    [internal/database] (generated by sqlc, not among the sources), with the
    fields that [main.go] reads and writes. *)
Record User := {
  User_ID : UUID;
  User_CreatedAt : Time;
  User_UpdatedAt : Time;
  User_Email : string
}.

Record Chirp := {
  Chirp_ID : UUID;
  Chirp_CreatedAt : Time;
  Chirp_UpdatedAt : Time;
  Chirp_Body : string;
  Chirp_UserID : UUID
}.

Record CreateUserParams := {
  CreateUserParams_ID : UUID;
  CreateUserParams_Email : string;
  CreateUserParams_CreatedAt : Time;
  CreateUserParams_UpdatedAt : Time
}.

Record CreateChirpParams := {
  CreateChirpParams_ID : UUID;
  CreateChirpParams_CreatedAt : Time;
  CreateChirpParams_UpdatedAt : Time;
  CreateChirpParams_Body : string;
  CreateChirpParams_UserID : UUID
}.

End database.

(** ** Requests and responses *)

(** What [json.Decoder] finds at the start of [r.Body]: nothing, text that is
    not JSON, or a first JSON value (what follows it is not read). *)
Inductive RequestBody : Type :=
| BodyEmpty
| BodyInvalid
| BodyJSON (v : json).

(** The patterns that [main] registers on the mux, and [NoPattern] for a
    request that matches none of them. *)
Inductive Pattern : Type :=
| GET_api_healthz
| POST_api_chirps
| GET_api_chirps
| GET_api_chirps_chirpID
| GET_admin_metrics
| POST_admin_reset
| POST_api_users
| assets_tree
| app_tree
| NoPattern.

Definition Pattern_eqb (a b : Pattern) : bool :=
  match a, b with
  | GET_api_healthz, GET_api_healthz | POST_api_chirps, POST_api_chirps
  | GET_api_chirps, GET_api_chirps | GET_api_chirps_chirpID, GET_api_chirps_chirpID
  | GET_admin_metrics, GET_admin_metrics | POST_admin_reset, POST_admin_reset
  | POST_api_users, POST_api_users | assets_tree, assets_tree
  | app_tree, app_tree | NoPattern, NoPattern => true
  | _, _ => false
  end.

(** An [*http.Request] as the handlers see it: the pattern the mux matched,
    the path wildcards it bound, the URL path and the body. *)
Record Request := {
  Request_Pattern : Pattern;
  Request_Path : string;
  Request_PathValues : list (string * string);
  Request_Body : RequestBody
}.

(** [r.PathValue(name)]: the empty string when no wildcard has that name. *)
Fixpoint PathValue (values : list (string * string)) (name : string) : string :=
  match values with
  | [] => ""
  | (k, v) :: rest => if String.eqb k name then v else PathValue rest name
  end.

Inductive ResponseBody : Type :=
| NoBody
| TextBody (text : string)
| JSONBody (v : json).

(** What a handler wrote to its [http.ResponseWriter]. *)
Record Response := {
  StatusCode : Z;
  ContentType : option string;
  Body : ResponseBody
}.

Definition StatusOK : Z := 200.
Definition StatusCreated : Z := 201.
Definition StatusBadRequest : Z := 400.
Definition StatusForbidden : Z := 403.
Definition StatusNotFound : Z := 404.
Definition StatusInternalServerError : Z := 500.

(** ** Effects *)

(** The calls that leave the program: the queries of [cfg.db], the clock, the
    identifier generator, the log, the file servers and the mux's own answer. *)
Inductive Ext : Type -> Type :=
| DeleteAllUsers : Ext (option error)
| CreateUser (arg : database.CreateUserParams) : Ext (result database.User)
| CreateChirp (arg : database.CreateChirpParams) : Ext (result database.Chirp)
| GetChirps : Ext (result (list database.Chirp))
| GetChirpByID (id : UUID) : Ext (result database.Chirp)
| uuid_New : Ext UUID
| time_Now : Ext Time
| log_Printf (format : string) (e : error) : Ext unit
| FileServer (root prefix : string) (r : Request) : Ext Response
| Mux_NoHandler (r : Request) : Ext Response.

(** The effects of a handler: the atomic operations on [cfg.fileserverHits]
    and the outside calls. *)
Inductive Eff : Type -> Type :=
| Hits_Add (delta : Z) : Eff Z
| Hits_Load : Eff Z
| Hits_Store (v : Z) : Eff unit
| Outside {X : Type} (e : Ext X) : Eff X.

(** Programs: a result, or an effect and the rest of the program. *)
Inductive Prog (A : Type) : Type :=
| Ret (a : A)
| Vis {X : Type} (e : Eff X) (k : X -> Prog A).
Arguments Ret {A} a.
Arguments Vis {A X} e k.

Fixpoint bind {A B : Type} (p : Prog A) (f : A -> Prog B) : Prog B :=
  match p with
  | Ret a => f a
  | Vis e k => Vis e (fun x => bind (k x) f)
  end.

Definition trigger {X : Type} (e : Eff X) : Prog X := Vis e Ret.
Definition call {X : Type} (e : Ext X) : Prog X := trigger (Outside e).

#[global] Instance Prog_ret : MRet Prog := @Ret.
#[global] Instance Prog_bind : MBind Prog := fun A B f p => bind p f.

(** An effect that happened. *)
Inductive Event : Type :=
| Ev {X : Type} (e : Eff X).

(** Go's [int32] arithmetic: the result wrapped into [-2^31, 2^31). *)
Definition wrap32 (z : Z) : Z := (z + 2 ^ 31) mod 2 ^ 32 - 2 ^ 31.

(** The process state: the fields of [apiConfig] ([db] is the outside world). *)
Record apiConfig := {
  fileserverHits : Z;
  platform : string
}.

Section Interpreter.

(** The world outside the program and its answer to each call. *)
Variable World : Type.
Variable outside : forall X : Type, Ext X -> World -> X * World.

(** Run a program from a counter value and a world: the result, the final
    counter, the final world and the effects in the order they happened. *)
Fixpoint run {A : Type} (p : Prog A) (hits : Z) (w : World)
  : A * Z * World * list Event :=
  match p with
  | Ret a => (a, hits, w, [])
  | Vis e k =>
    match e in Eff X return (X -> Prog A) -> A * Z * World * list Event with
    | Hits_Add delta => fun k =>
        let hits' := wrap32 (hits + delta) in
        let '(a, h, w', tr) := run (k hits') hits' w in
        (a, h, w', Ev (Hits_Add delta) :: tr)
    | Hits_Load => fun k =>
        let '(a, h, w', tr) := run (k hits) hits w in
        (a, h, w', Ev Hits_Load :: tr)
    | Hits_Store v => fun k =>
        let '(a, h, w', tr) := run (k tt) v w in
        (a, h, w', Ev (Hits_Store v) :: tr)
    | Outside o => fun k =>
        let '(x, w1) := outside _ o w in
        let '(a, h, w', tr) := run (k x) hits w1 in
        (a, h, w', Ev (Outside o) :: tr)
    end k
  end.

End Interpreter.

(** ** Package encoding/json, as far as the two request structs need it *)

(** What storing one object member into a struct field does. *)
Inductive Stored (T : Type) : Type :=
| Set_ (t : T)            (* the field is assigned *)
| Skip                    (* null, or a key of no field: nothing happens *)
| Mismatch (e : error)    (* a value of the wrong JSON type: the error is saved, decoding goes on *)
| Abort (e : error).      (* an unmarshaler failed: decoding stops with its error *)
Arguments Set_ {T} t.
Arguments Skip {T}.
Arguments Mismatch {T} e.
Arguments Abort {T} e.

(** The name of a JSON type in an [UnmarshalTypeError]. *)
Definition jsonKind (v : json) : string :=
  match v with
  | JNull => "null"
  | JBool _ => "bool"
  | JNumber _ => "number"
  | JString _ => "string"
  | JArray _ => "array"
  | JObject _ => "object"
  end.

(** A member value for a field of type [string]. *)
Definition storeString (v : json) : Stored string :=
  match v with
  | JString s => Set_ s
  | JNull => Skip
  | _ => Mismatch (json_UnmarshalTypeError (jsonKind v))
  end.

Section Decoding.

(** [strings.EqualFold]: equality under Unicode simple case folding. *)
Variable EqualFold : string -> string -> bool.

(** [uuid.Parse]. *)
Variable uuid_Parse : string -> option UUID.

(** An object key selects a field by its exact name or, failing that, by
    case-insensitive match. *)
Definition keyMatches (key name : string) : bool :=
  String.eqb key name || EqualFold key name.

(** A member value for a field of type [uuid.UUID], through
    [UnmarshalText]. *)
Definition storeUUID (v : json) : Stored UUID :=
  match v with
  | JString s =>
    match uuid_Parse s with
    | Some id => Set_ id
    | None => Abort uuid_ParseError
    end
  | JNull => Skip
  | _ => Mismatch (json_UnmarshalTypeError (jsonKind v))
  end.

(** The members of an object, in order; [saved] is the first type error met. *)
Fixpoint decodeMembers {T : Type} (store : string -> json -> T -> Stored T)
    (members : list (string * json)) (t : T) (saved : option error)
  : T * option error :=
  match members with
  | [] => (t, saved)
  | (key, v) :: rest =>
    match store key v t with
    | Set_ t' => decodeMembers store rest t' saved
    | Skip => decodeMembers store rest t saved
    | Mismatch e =>
      decodeMembers store rest t (match saved with Some e0 => Some e0 | None => Some e end)
    | Abort e => (t, Some e)
    end
  end.

(** [json.NewDecoder(r.Body).Decode(&t)] for a struct [t]: the struct after
    the call and the error returned. *)
Definition Decode {T : Type} (store : string -> json -> T -> Stored T)
    (body : RequestBody) (t : T) : T * option error :=
  match body with
  | BodyEmpty => (t, Some io_EOF)
  | BodyInvalid => (t, Some json_SyntaxError)
  | BodyJSON (JObject members) => decodeMembers store members t None
  | BodyJSON JNull => (t, None)
  | BodyJSON v => (t, Some (json_UnmarshalTypeError (jsonKind v)))
  end.

Definition storeUserRequest (key : string) (v : json) (t : UserRequest)
  : Stored UserRequest :=
  if keyMatches key "email" then
    match storeString v with
    | Set_ s => Set_ {| UserRequest_Email := s |}
    | Skip => Skip
    | Mismatch e => Mismatch e
    | Abort e => Abort e
    end
  else Skip.

Definition storeCreateChirpRequest (key : string) (v : json) (t : CreateChirpRequest)
  : Stored CreateChirpRequest :=
  if keyMatches key "body" then
    match storeString v with
    | Set_ s => Set_ {| CreateChirpRequest_Body := s;
                        CreateChirpRequest_UserID := CreateChirpRequest_UserID t |}
    | Skip => Skip
    | Mismatch e => Mismatch e
    | Abort e => Abort e
    end
  else if keyMatches key "user_id" then
    match storeUUID v with
    | Set_ id => Set_ {| CreateChirpRequest_Body := CreateChirpRequest_Body t;
                         CreateChirpRequest_UserID := id |}
    | Skip => Skip
    | Mismatch e => Mismatch e
    | Abort e => Abort e
    end
  else Skip.

End Decoding.

(** ** The handlers of [main.go] *)

(** [fmt]'s verb [%d] on an integer. *)
Definition fmt_d (v : Z) : string := NilZero.string_of_int (Z.to_int v).

(** The page of [adminMetricsHandler]. *)
Definition metricsPage (hits : Z) : string :=
  "<html>
  <body>
    <h1>Welcome, Chirpy Admin</h1>
    <p>Chirpy has been visited " +:+ fmt_d hits +:+ " times!</p>
  </body>
</html>".

Section Handlers.

Variable lowerCase : Z -> Z.
Variable EqualFold : string -> string -> bool.
Variable uuid_Parse : string -> option UUID.

(** [UUID.MarshalText] and [Time.MarshalJSON]: the text of an identifier and
    of an instant in a JSON document. *)
Variable uuid_String : UUID -> string.
Variable time_Format : Time -> string.

(** [json.Marshal] on the response structs, by their field tags. *)
Definition marshalErrorResponse (p : ErrorResponse) : json :=
  JObject [("error", JString (Error p))].

Definition marshalUser (u : User) : json :=
  JObject [("id", JString (uuid_String (User_ID u)));
           ("created_at", JString (time_Format (User_CreatedAt u)));
           ("updated_at", JString (time_Format (User_UpdatedAt u)));
           ("email", JString (User_Email u))].

Definition marshalChirp (c : Chirp) : json :=
  JObject [("id", JString (uuid_String (Chirp_ID c)));
           ("created_at", JString (time_Format (Chirp_CreatedAt c)));
           ("updated_at", JString (time_Format (Chirp_UpdatedAt c)));
           ("body", JString (Chirp_Body c));
           ("user_id", JString (uuid_String (Chirp_UserID c)))].

Definition respondWithJSON (code : Z) (payload : json) : Response :=
  {| StatusCode := code;
     ContentType := Some "application/json";
     Body := JSONBody payload |}.

Definition respondWithError (code : Z) (msg : string) : Response :=
  respondWithJSON code (marshalErrorResponse {| Error := msg |}).

Definition middlewareMetricsInc (next : Request -> Prog Response)
  : Request -> Prog Response :=
  fun r => trigger (Hits_Add 1);; next r.

Definition adminMetricsHandler (r : Request) : Prog Response :=
  hits ← trigger Hits_Load;
  mret {| StatusCode := StatusOK;
          ContentType := Some "text/html; charset=utf-8";
          Body := TextBody (metricsPage hits) |}.

Definition adminResetHandler (cfg_platform : string) (r : Request) : Prog Response :=
  if negb (String.eqb cfg_platform "dev") then
    mret (respondWithError StatusForbidden
            "This endpoint is only available in development")
  else
    trigger (Hits_Store 0);;
    err ← call DeleteAllUsers;
    match err with
    | Some _ => mret (respondWithError StatusInternalServerError "Error deleting users")
    | None => mret {| StatusCode := StatusOK; ContentType := None; Body := NoBody |}
    end.

Definition createUserHandler (r : Request) : Prog Response :=
  let '(userReq, err) :=
    Decode (storeUserRequest EqualFold) (Request_Body r) {| UserRequest_Email := "" |} in
  match err with
  | Some _ => mret (respondWithError StatusBadRequest "Invalid request payload")
  | None =>
    id ← call uuid_New;
    createdAt ← call time_Now;
    updatedAt ← call time_Now;
    res ← call (CreateUser
                  {| database.CreateUserParams_ID := id;
                     database.CreateUserParams_Email := UserRequest_Email userReq;
                     database.CreateUserParams_CreatedAt := createdAt;
                     database.CreateUserParams_UpdatedAt := updatedAt |});
    match res with
    | Err _ => mret (respondWithError StatusInternalServerError "Error creating user")
    | Ok dbUser =>
      let user := {| User_ID := database.User_ID dbUser;
                     User_CreatedAt := database.User_CreatedAt dbUser;
                     User_UpdatedAt := database.User_UpdatedAt dbUser;
                     User_Email := database.User_Email dbUser |} in
      mret (respondWithJSON StatusCreated (marshalUser user))
    end
  end.

Definition createChirpHandler (r : Request) : Prog Response :=
  let '(req, err) :=
    Decode (storeCreateChirpRequest EqualFold uuid_Parse) (Request_Body r)
           {| CreateChirpRequest_Body := ""; CreateChirpRequest_UserID := uuid_Nil |} in
  match err with
  | Some _ => mret (respondWithError StatusBadRequest "Invalid request payload")
  | None =>
    if 140 <? len (CreateChirpRequest_Body req) then
      mret (respondWithError StatusBadRequest "Chirp is too long")
    else
      let cleanedBody := cleanProfanity lowerCase (CreateChirpRequest_Body req) in
      id ← call uuid_New;
      createdAt ← call time_Now;
      updatedAt ← call time_Now;
      res ← call (CreateChirp
                    {| database.CreateChirpParams_ID := id;
                       database.CreateChirpParams_CreatedAt := createdAt;
                       database.CreateChirpParams_UpdatedAt := updatedAt;
                       database.CreateChirpParams_Body := cleanedBody;
                       database.CreateChirpParams_UserID := CreateChirpRequest_UserID req |});
      match res with
      | Err e =>
        call (log_Printf "Error creating chirp: %v" e);;
        mret (respondWithError StatusInternalServerError "Error creating chirp")
      | Ok chirp =>
        let response := {| Chirp_ID := database.Chirp_ID chirp;
                           Chirp_CreatedAt := database.Chirp_CreatedAt chirp;
                           Chirp_UpdatedAt := database.Chirp_UpdatedAt chirp;
                           Chirp_Body := database.Chirp_Body chirp;
                           Chirp_UserID := database.Chirp_UserID chirp |} in
        mret (respondWithJSON StatusCreated (marshalChirp response))
      end
  end.

Definition chirpOfRow (dbChirp : database.Chirp) : Chirp :=
  {| Chirp_ID := database.Chirp_ID dbChirp;
     Chirp_CreatedAt := database.Chirp_CreatedAt dbChirp;
     Chirp_UpdatedAt := database.Chirp_UpdatedAt dbChirp;
     Chirp_Body := database.Chirp_Body dbChirp;
     Chirp_UserID := database.Chirp_UserID dbChirp |}.

Definition getChirpsHandler (r : Request) : Prog Response :=
  res ← call GetChirps;
  match res with
  | Err e =>
    call (log_Printf "Error getting chirps: %v" e);;
    mret (respondWithError StatusInternalServerError "Error getting chirps")
  | Ok chirps =>
    mret (respondWithJSON StatusOK (JArray (marshalChirp <$> (chirpOfRow <$> chirps))))
  end.

Definition getChirpByIDHandler (r : Request) : Prog Response :=
  let chirpIDStr := PathValue (Request_PathValues r) "chirpID" in
  match uuid_Parse chirpIDStr with
  | None => mret (respondWithError StatusBadRequest "Invalid chirp ID format")
  | Some chirpID =>
    res ← call (GetChirpByID chirpID);
    match res with
    | Err sql_ErrNoRows => mret (respondWithError StatusNotFound "Chirp not found")
    | Err e =>
      call (log_Printf "Error getting chirp: %v" e);;
      mret (respondWithError StatusInternalServerError "Error getting chirp")
    | Ok chirp =>
      mret (respondWithJSON StatusOK (marshalChirp (chirpOfRow chirp)))
    end
  end.

Definition healthzHandler (r : Request) : Prog Response :=
  mret {| StatusCode := StatusOK;
          ContentType := Some "text/plain; charset=utf-8";
          Body := TextBody "OK" |}.

(** The registrations of [main]: the handler behind each pattern. Only the
    [/app/] tree is wrapped in [middlewareMetricsInc]. *)
Definition registered (cfg_platform : string) (p : Pattern) : Request -> Prog Response :=
  match p with
  | GET_api_healthz => healthzHandler
  | POST_api_chirps => createChirpHandler
  | GET_api_chirps => getChirpsHandler
  | GET_api_chirps_chirpID => getChirpByIDHandler
  | GET_admin_metrics => adminMetricsHandler
  | POST_admin_reset => adminResetHandler cfg_platform
  | POST_api_users => createUserHandler
  | assets_tree => fun r => call (FileServer "assets" "/assets/" r)
  | app_tree => middlewareMetricsInc (fun r => call (FileServer "." "/app" r))
  | NoPattern => fun r => call (Mux_NoHandler r)
  end.

Definition ServeHTTP (cfg_platform : string) (r : Request) : Prog Response :=
  registered cfg_platform (Request_Pattern r) r.

(** The server handling requests one after the other. *)
Section Serving.

Variable World : Type.
Variable outside : forall X : Type, Ext X -> World -> X * World.

Definition serve (cfg : apiConfig) (w : World) (r : Request)
  : Response * apiConfig * World :=
  let '(resp, hits, w', _) :=
    run World outside (ServeHTTP (platform cfg) r) (fileserverHits cfg) w in
  (resp, {| fileserverHits := hits; platform := platform cfg |}, w').

Fixpoint serveAll (cfg : apiConfig) (w : World) (reqs : list Request)
  : apiConfig * World :=
  match reqs with
  | [] => (cfg, w)
  | r :: rest => let '(_, cfg', w') := serve cfg w r in serveAll cfg' w' rest
  end.

(** The body of the metrics report asked for in state [(cfg, w)]. *)
Definition metricsReport (cfg : apiConfig) (w : World) : ResponseBody :=
  Body (run World outside (adminMetricsHandler
          {| Request_Pattern := GET_admin_metrics; Request_Path := "/admin/metrics";
             Request_PathValues := []; Request_Body := BodyEmpty |})
        (fileserverHits cfg) w).1.1.1.

End Serving.

End Handlers.

(** The chirp bodies handed to [CreateChirp] in a sequence of effects. *)
Definition createChirpBodies (tr : list Event) : list string :=
  flat_map (fun ev =>
    match ev with
    | Ev (Outside (CreateChirp arg)) => [database.CreateChirpParams_Body arg]
    | _ => []
    end) tr.

(** The store queries in a sequence of effects. *)
Definition isStoreCall (ev : Event) : bool :=
  match ev with
  | Ev (Outside DeleteAllUsers) | Ev (Outside (CreateUser _))
  | Ev (Outside (CreateChirp _)) | Ev (Outside GetChirps)
  | Ev (Outside (GetChirpByID _)) => true
  | _ => false
  end.

(** ** Vocabulary of the claims *)

(** A request routed through the instrumentation wrapper. *)
Definition instrumented (r : Request) : bool :=
  Pattern_eqb (Request_Pattern r) app_tree.

Definition isReset (r : Request) : bool :=
  Pattern_eqb (Request_Pattern r) POST_admin_reset.

(** The number of instrumented requests in a sequence. *)
Fixpoint countInstrumented (reqs : list Request) : Z :=
  match reqs with
  | [] => 0
  | r :: rest => (if instrumented r then 1 else 0) + countInstrumented rest
  end.

(** A program that never adds to the hit counter nor stores into it. *)
Inductive counterFree {A : Type} : Prog A -> Prop :=
| counterFree_Ret (a : A) : counterFree (Ret a)
| counterFree_Load (k : Z -> Prog A) :
    (forall x, counterFree (k x)) -> counterFree (Vis Hits_Load k)
| counterFree_Outside {X : Type} (o : Ext X) (k : X -> Prog A) :
    (forall x, counterFree (k x)) -> counterFree (Vis (Outside o) k).

(** The user-creation envelopes that decode without error, read off the JSON
    value: [null], or an object each of whose members named [email] (exactly
    or up to letter case) holds a string or [null]. *)
Definition userEnvelopeAccepted (EqualFold : string -> string -> bool)
    (body : RequestBody) : bool :=
  match body with
  | BodyJSON JNull => true
  | BodyJSON (JObject members) =>
    forallb (fun '(key, v) =>
               negb (keyMatches EqualFold key "email")
               || match v with JString _ | JNull => true | _ => false end)
            members
  | _ => false
  end.

(** ** A concrete environment, for running the handlers on examples *)

Module Sample.

(** A few entries of [unicode.CaseRanges]: the Latin-1 capitals, the dotted
    capital I and the Kelvin sign; every other rune is its own image. *)
Definition lowerCase (r : Z) : Z :=
  if ((0xC0 <=? r) && (r <=? 0xD6)) || ((0xD8 <=? r) && (r <=? 0xDE)) then r + 32
  else if r =? 0x130 then 0x69
  else if r =? 0x212A then 0x6B
  else r.

(** [strings.EqualFold] on ASCII strings. *)
Definition EqualFold (a b : string) : bool :=
  String.eqb (GoStrings.lowerASCII a) (GoStrings.lowerASCII b).

Definition hexDigit (c : ascii) : option Z :=
  let b := byte_val c in
  if (0x30 <=? b) && (b <=? 0x39) then Some (b - 0x30)
  else if (0x61 <=? b) && (b <=? 0x66) then Some (b - 0x61 + 10)
  else if (0x41 <=? b) && (b <=? 0x46) then Some (b - 0x41 + 10)
  else None.

Fixpoint hexDecode (s : string) : option string :=
  match s with
  | EmptyString => Some EmptyString
  | String hi (String lo rest) =>
    match hexDigit hi, hexDigit lo, hexDecode rest with
    | Some h, Some l, Some bytes => Some (String (byte_of (16 * h + l)) bytes)
    | _, _, _ => None
    end
  | String _ EmptyString => None
  end.

(** [uuid.Parse] on the canonical form
    [xxxxxxxx-xxxx-xxxx-xxxx-xxxxxxxxxxxx]; every other text is refused. *)
Definition uuid_Parse (s : string) : option UUID :=
  if negb (String.length s =? 36)%nat then None
  else if negb (forallb (fun i => byte_at s i =? 0x2D) [8; 13; 18; 23]%nat) then None
  else
    match hexDecode (substring 0 8 s +:+ substring 9 4 s +:+ substring 14 4 s
                     +:+ substring 19 4 s +:+ substring 24 12 s) with
    | Some bytes => Some {| uuid_bytes := bytes |}
    | None => None
    end.

Definition hexChar (d : Z) : ascii :=
  if d <? 10 then byte_of (0x30 + d) else byte_of (0x61 + d - 10).

Fixpoint hexEncode (s : string) : string :=
  match s with
  | EmptyString => EmptyString
  | String c rest =>
    String (hexChar (byte_val c / 16)) (String (hexChar (byte_val c mod 16)) (hexEncode rest))
  end.

(** [UUID.String]: the canonical form. *)
Definition uuid_String (id : UUID) : string :=
  let h := hexEncode (uuid_bytes id) in
  substring 0 8 h +:+ "-" +:+ substring 8 4 h +:+ "-" +:+ substring 12 4 h +:+ "-"
  +:+ substring 16 4 h +:+ "-" +:+ substring 20 12 h.

(** A stand-in for the RFC 3339 text of an instant: its count of nanoseconds. *)
Definition time_Format (t : Time) : string := fmt_d t.

(** A store held in memory, a clock and a counter for fresh identifiers;
    [available = false] is a store whose every query fails. *)
Record World := {
  users : list database.User;
  chirps : list database.Chirp;
  clock : Z;
  serial : Z;
  available : bool
}.

Definition unavailable : error := other_error "dial tcp: connection refused".

Definition freshUUID (n : Z) : UUID :=
  {| uuid_bytes := string_of_list_ascii (repeat Ascii.zero 15 ++ [byte_of n]) |}.

Definition uuid_eqb (a b : UUID) : bool := String.eqb (uuid_bytes a) (uuid_bytes b).

Definition outside (X : Type) (e : Ext X) (w : World) : X * World :=
  match e in Ext X return X * World with
  | DeleteAllUsers =>
    if available w then
      (None, {| users := []; chirps := chirps w; clock := clock w;
                serial := serial w; available := true |})
    else (Some unavailable, w)
  | CreateUser arg =>
    if available w then
      let row := {| database.User_ID := database.CreateUserParams_ID arg;
                    database.User_CreatedAt := database.CreateUserParams_CreatedAt arg;
                    database.User_UpdatedAt := database.CreateUserParams_UpdatedAt arg;
                    database.User_Email := database.CreateUserParams_Email arg |} in
      (Ok row, {| users := users w ++ [row]; chirps := chirps w; clock := clock w;
                  serial := serial w; available := true |})
    else (Err unavailable, w)
  | CreateChirp arg =>
    if available w then
      let row := {| database.Chirp_ID := database.CreateChirpParams_ID arg;
                    database.Chirp_CreatedAt := database.CreateChirpParams_CreatedAt arg;
                    database.Chirp_UpdatedAt := database.CreateChirpParams_UpdatedAt arg;
                    database.Chirp_Body := database.CreateChirpParams_Body arg;
                    database.Chirp_UserID := database.CreateChirpParams_UserID arg |} in
      (Ok row, {| users := users w; chirps := chirps w ++ [row]; clock := clock w;
                  serial := serial w; available := true |})
    else (Err unavailable, w)
  | GetChirps =>
    if available w then (Ok (chirps w), w) else (Err unavailable, w)
  | GetChirpByID id =>
    if available w then
      match List.find (fun c => uuid_eqb (database.Chirp_ID c) id) (chirps w) with
      | Some c => (Ok c, w)
      | None => (Err sql_ErrNoRows, w)
      end
    else (Err unavailable, w)
  | uuid_New =>
    (freshUUID (serial w),
     {| users := users w; chirps := chirps w; clock := clock w;
        serial := serial w + 1; available := available w |})
  | time_Now =>
    (clock w,
     {| users := users w; chirps := chirps w; clock := clock w + 1;
        serial := serial w; available := available w |})
  | log_Printf _ _ => (tt, w)
  | FileServer _ _ _ =>
    ({| StatusCode := StatusOK; ContentType := Some "text/html; charset=utf-8";
        Body := TextBody "<html></html>" |}, w)
  | Mux_NoHandler _ =>
    ({| StatusCode := StatusNotFound; ContentType := Some "text/plain; charset=utf-8";
        Body := TextBody "404 page not found" |}, w)
  end.

Definition emptyWorld : World :=
  {| users := []; chirps := []; clock := 1700000000; serial := 1; available := true |}.

Definition brokenWorld : World :=
  {| users := []; chirps := []; clock := 1700000000; serial := 1; available := false |}.

Definition request (p : Pattern) (path : string) (body : RequestBody) : Request :=
  {| Request_Pattern := p; Request_Path := path;
     Request_PathValues := []; Request_Body := body |}.

Definition appRequest : Request := request app_tree "/app/index.html" BodyEmpty.

(** A body of 141 characters. *)
Definition longBody : string := string_of_list_ascii (repeat "a"%char 141).

Definition longChirpRequest : Request :=
  request POST_api_chirps "/api/chirps"
    (BodyJSON (JObject [("body", JString longBody);
                        ("user_id", JString "123e4567-e89b-12d3-a456-426614174000")])).

Definition chirpRequest : Request :=
  request POST_api_chirps "/api/chirps"
    (BodyJSON (JObject [("body", JString "This is a kerfuffle opinion I need to share");
                        ("user_id", JString "123e4567-e89b-12d3-a456-426614174000")])).

(** [POST /api/users] with the body [{}]. *)
Definition emptyObjectUserRequest : Request :=
  request POST_api_users "/api/users" (BodyJSON (JObject [])).

Definition mixedTraffic : list Request :=
  [appRequest; request GET_api_healthz "/api/healthz" BodyEmpty; appRequest;
   request assets_tree "/assets/logo.png" BodyEmpty; chirpRequest;
   request GET_admin_metrics "/admin/metrics" BodyEmpty; appRequest].

Definition devConfig : apiConfig := {| fileserverHits := 0; platform := "dev" |}.

End Sample.

(** ** The chirp validation endpoint of the earlier revision *)

Record ChirpRequest := { ChirpRequest_Body : string }.

Record CleanedResponse := { CleanedBody : string }.

Definition storeChirpRequest (EqualFold : string -> string -> bool)
    (key : string) (v : json) (t : ChirpRequest) : Stored ChirpRequest :=
  if keyMatches EqualFold key "body" then
    match storeString v with
    | Set_ s => Set_ {| ChirpRequest_Body := s |}
    | Skip => Skip
    | Mismatch e => Mismatch e
    | Abort e => Abort e
    end
  else Skip.

Definition marshalCleanedResponse (p : CleanedResponse) : json :=
  JObject [("cleaned_body", JString (CleanedBody p))].

(** [validateChirpHandler], registered on [POST /api/validate_chirp] before
    chirps were stored. *)
Definition validateChirpHandler (lowerCase : Z -> Z)
    (EqualFold : string -> string -> bool) (r : Request) : Prog Response :=
  let '(chirp, err) :=
    Decode (storeChirpRequest EqualFold) (Request_Body r) {| ChirpRequest_Body := "" |} in
  match err with
  | Some _ => mret (respondWithError StatusBadRequest "Something went wrong")
  | None =>
    if 140 <? len (ChirpRequest_Body chirp) then
      mret (respondWithError StatusBadRequest "Chirp is too long")
    else
      let cleanedBody := cleanProfanity lowerCase (ChirpRequest_Body chirp) in
      mret (respondWithJSON StatusOK
              (marshalCleanedResponse {| CleanedBody := cleanedBody |}))
  end.

(** ** More vocabulary *)

(** The number of store queries in a sequence of effects. *)
Definition storeCalls (tr : list Event) : nat :=
  length (List.filter isStoreCall tr).

(** A request answered by a handler of [main.go] itself, not by a file
    server or by the mux. *)
Definition ownHandler (r : Request) : bool :=
  match Request_Pattern r with
  | assets_tree | app_tree | NoPattern => false
  | _ => true
  end.

(** The status codes that the handlers of [main.go] write. *)
Definition knownStatus : list Z := [200; 201; 400; 403; 404; 500].

(** The hit counter after one request, read off the route and the mode. *)
Definition counterStep (cfg_platform : string) (hits : Z) (r : Request) : Z :=
  if instrumented r then wrap32 (hits + 1)
  else if isReset r && String.eqb cfg_platform "dev" then 0
  else hits.

Module Scenario.

(** A body of 71 letters e-acute: 71 characters, 142 bytes. *)
Definition accentedBody : string :=
  string_of_list_ascii
    (concat (repeat [byte_of 0xC3; byte_of 0xA9] 71)).

Definition chirpWith (body : string) : Request :=
  Sample.request POST_api_chirps "/api/chirps"
    (BodyJSON (JObject [("body", JString body)])).

Definition validateWith (body : string) : Request :=
  Sample.request POST_api_chirps "/api/validate_chirp"
    (BodyJSON (JObject [("body", JString body)])).

Definition resetRequest : Request :=
  Sample.request POST_admin_reset "/admin/reset" BodyEmpty.

(** [POST /api/chirps] with a body of 141 characters and a [user_id] that is
    not a UUID. *)
Definition longChirpBadUserRequest : Request :=
  Sample.request POST_api_chirps "/api/chirps"
    (BodyJSON (JObject [("body", JString Sample.longBody);
                        ("user_id", JString "nope")])).

Definition prodConfig : apiConfig := {| fileserverHits := 0; platform := "prod" |}.

End Scenario.

(** ** Properties of the string library model *)

Lemma byte_val_byte_of z : byte_val (byte_of z) = z mod 256.
Proof.
  unfold byte_val, byte_of.
  assert (0 <= z mod 256 < 256) by (apply Z.mod_pos_bound; lia).
  rewrite N_ascii_embedding by lia. lia.
Qed.

Lemma string_app_nil_l (b : string) : "" +:+ b = b.
Proof. reflexivity. Qed.

Lemma string_app_cons c (a b : string) : String c a +:+ b = String c (a +:+ b).
Proof. reflexivity. Qed.

Lemma string_app_nil_r (a : string) : a +:+ "" = a.
Proof.
  induction a as [|c a IH]; [done |]. by rewrite string_app_cons, IH.
Qed.

Lemma length_string_app (a b : string) :
  String.length (a +:+ b) = (String.length a + String.length b)%nat.
Proof.
  induction a as [|c a IH]; [done |].
  rewrite string_app_cons. simpl. by rewrite IH.
Qed.

Module SplitJoin.

Import GoStrings.

Lemma Split_nonempty s sep : Split s sep <> [].
Proof.
  destruct s as [|c s]; simpl; [done |].
  destruct (Ascii.eqb c sep); [done |].
  by destruct (Split s sep).
Qed.

Lemma joinRest_cons e rest sep :
  joinRest (e :: rest) sep = sep +:+ Join (e :: rest) sep.
Proof. reflexivity. Qed.

(** Joining what [Split] produced gives the string back. *)
Lemma Join_Split s c : Join (Split s c) (String c "") = s.
Proof.
  induction s as [|x s IH]; [done |].
  cbn [Split]. pose proof (Split_nonempty s c) as Hn.
  destruct (Ascii.eqb_spec x c) as [->|Hne].
  - destruct (Split s c) as [|w ws]; [done |].
    cbn [Join]. by rewrite joinRest_cons, IH.
  - destruct (Split s c) as [|w ws]; [done |].
    cbn [Join] in *. by rewrite string_app_cons, IH.
Qed.

Lemma Split_app_nosep t c rest :
  hasByte c t = false ->
  Split (t +:+ String c rest) c = t :: Split rest c.
Proof.
  induction t as [|x t IH]; intros Hno.
  - rewrite string_app_nil_l. simpl. by rewrite Ascii.eqb_refl.
  - rewrite string_app_cons. simpl in *.
    destruct (Ascii.eqb x c); [done |]. by rewrite IH.
Qed.

Lemma Split_nosep t c : hasByte c t = false -> Split t c = [t].
Proof.
  induction t as [|x t IH]; intros Hno; simpl in *; [done |].
  destruct (Ascii.eqb x c); [done |]. by rewrite IH.
Qed.

(** Splitting a join of separator-free pieces gives the pieces back. *)
Lemma Split_Join (l : list string) c :
  l <> [] -> Forall (fun t => hasByte c t = false) l ->
  Split (Join l (String c "")) c = l.
Proof.
  induction l as [|t l IH]; intros Hne Hall; [done |].
  apply Forall_cons in Hall as [Ht Hl].
  destruct l as [|u l].
  - cbn [Join joinRest]. rewrite string_app_nil_r. by apply Split_nosep.
  - cbn [Join]. rewrite joinRest_cons, string_app_cons, string_app_nil_l.
    rewrite Split_app_nosep by done. f_equal. by apply IH.
Qed.

(** The pieces [Split] returns are free of the separator. *)
Lemma Split_pieces_nosep s c : Forall (fun t => hasByte c t = false) (Split s c).
Proof.
  induction s as [|x s IH]; simpl.
  - by repeat constructor.
  - destruct (Ascii.eqb x c) eqn:E; [by constructor |].
    destruct (Split s c) as [|w ws]; [by repeat constructor; simpl; rewrite E |].
    apply Forall_cons in IH as [Hw Hws]. constructor; [| done].
    simpl. by rewrite E.
Qed.

(** [len(Join(elems, sep))]: the pieces, and one separator between neighbours. *)
Lemma length_joinRest (l : list string) sep :
  String.length (joinRest l sep)
  = (length l * String.length sep + sum_list (String.length <$> l))%nat.
Proof.
  induction l as [|e l IH]; [done |].
  cbn [joinRest]. rewrite !length_string_app, IH, fmap_cons. cbn [sum_list sum_list_with length id]. lia.
Qed.

End SplitJoin.

Module Casing.

Import Utf8 GoStrings.

Lemma isASCII_app (a b : string) : isASCII (a +:+ b) = isASCII a && isASCII b.
Proof.
  induction a as [|c a IH]; [done |].
  rewrite string_app_cons. simpl. by destruct (RuneSelf <=? byte_val c).
Qed.

Lemma length_lowerASCII s : String.length (lowerASCII s) = String.length s.
Proof. induction s as [|c s IH]; simpl; [done | by rewrite IH]. Qed.

(** A byte with bit 7 set is not an ASCII byte. *)
Lemma high_bit_byte a : Z.testbit a 7 = true -> 128 <= a mod 256.
Proof.
  intros Hb.
  assert (Hr : 0 <= a mod 256 < 256) by (apply Z.mod_pos_bound; lia).
  assert (Hx : Z.testbit (a mod 2 ^ 8) 7 = true)
    by (rewrite Z.mod_pow2_bits_low by lia; exact Hb).
  change (2 ^ 8) with 256 in Hx.
  apply Z.testbit_true in Hx; [| lia].
  destruct (Z.lt_ge_cases (a mod 256) 128) as [Hlt|]; [| done].
  rewrite Z.div_small in Hx by (change (2 ^ 7) with 128; lia).
  discriminate.
Qed.

Lemma lead_byte_not_ascii t y rest :
  Z.testbit t 7 = true ->
  isASCII (String (byte_of (Z.lor t y)) rest) = false.
Proof.
  intros Ht. simpl. rewrite byte_val_byte_of.
  assert (128 <= Z.lor t y mod 256)
    by (apply high_bit_byte; rewrite Z.lor_spec, Ht; reflexivity).
  unfold RuneSelf. by destruct (Z.leb_spec 128 (Z.lor t y mod 256)); [| lia].
Qed.

(** Only the one-byte encodings are made of ASCII bytes. *)
Lemma EncodeRune_ascii r :
  isASCII (EncodeRune r) = true -> String.length (EncodeRune r) = 1%nat.
Proof.
  unfold EncodeRune, bytes3.
  repeat match goal with
         | |- context [if ?c then _ else _] => destruct c
         end;
    first [ reflexivity
          | rewrite lead_byte_not_ascii by reflexivity; discriminate ].
Qed.

(** A rune takes at least one byte of the string. *)
Lemma rangeString_length s : forall skip,
  (length (rangeString skip s) <= String.length s)%nat.
Proof.
  induction s as [|c s IH]; intros skip; [done |].
  cbn [rangeString]. destruct skip as [|k].
  - destruct (DecodeRuneInString (String c s)) as [r size].
    simpl. specialize (IH (size - 1)%nat). lia.
  - specialize (IH k). simpl. lia.
Qed.

Lemma Map_ascii_length mapping s :
  isASCII (Map mapping s) = true ->
  (String.length (Map mapping s) <= String.length s)%nat.
Proof.
  unfold Map. intros H.
  etrans; [| apply (rangeString_length s 0)].
  revert H. generalize (rangeString 0 s) as l.
  induction l as [|c l IH]; [done |].
  cbn [foldr]. cbv zeta. destruct (0 <=? mapping c).
  - rewrite isASCII_app, length_string_app.
    intros [H1 H2]%andb_true_iff.
    rewrite (EncodeRune_ascii _ H1). specialize (IH H2). simpl. lia.
  - intros H. specialize (IH H). simpl. lia.
Qed.

Section WithCaseTable.

Variable lowerCase : Z -> Z.

(** A string that lower-cases to ASCII is at least as long as its image. *)
Lemma ToLower_ascii_length s :
  isASCII (ToLower lowerCase s) = true ->
  (String.length (ToLower lowerCase s) <= String.length s)%nat.
Proof.
  unfold ToLower. destruct (isASCII s).
  - by rewrite length_lowerASCII.
  - apply Map_ascii_length.
Qed.

End WithCaseTable.

End Casing.

(** ** The moderator *)

Lemma matchesProfane_elem w (l : list string) : matchesProfane w l = true <-> w ∈ l.
Proof.
  induction l as [|p l IH]; simpl.
  - split; [done | by intros ?%elem_of_nil].
  - rewrite elem_of_cons. destruct (String.eqb_spec w p) as [->|Hne].
    + split; auto.
    + rewrite IH. split; [auto | by intros [?|?]].
Qed.

Section ModerationFacts.

Variable lowerCase : Z -> Z.

Local Abbreviation ToLower := (GoStrings.ToLower lowerCase).
Local Abbreviation mask := (maskToken lowerCase).

Lemma cleanStep_mask (pre rest : list string) word :
  cleanStep lowerCase (pre ++ word :: rest) (length pre)
  = pre ++ mask word :: rest.
Proof.
  unfold cleanStep, maskToken.
  rewrite list_lookup_middle by reflexivity. cbv zeta.
  destruct (matchesProfane (ToLower word) profaneWords) eqn:E.
  - apply matchesProfane_elem in E. rewrite decide_True by done.
    rewrite insert_app_r_alt by lia. by rewrite Nat.sub_diag.
  - rewrite decide_False; [done |].
    intros Hin%matchesProfane_elem. congruence.
Qed.

Lemma cleanLoop_mask (rest : list string) : forall pre,
  foldl (cleanStep lowerCase) (pre ++ rest) (seq (length pre) (length rest))
  = pre ++ (mask <$> rest).
Proof.
  induction rest as [|word rest IH]; intros pre; [done |].
  cbn [length seq foldl]. rewrite cleanStep_mask.
  specialize (IH (pre ++ [mask word])).
  rewrite length_app, <- !app_assoc in IH. cbn [length app] in IH.
  rewrite Nat.add_1_r in IH. rewrite IH, fmap_cons. reflexivity.
Qed.

(** The index loop masks exactly the denylisted entries. *)
Lemma cleanWords_mask (words : list string) :
  cleanWords lowerCase words = mask <$> words.
Proof. apply (cleanLoop_mask words []). Qed.

Lemma cleanProfanity_moderate_spec input :
  cleanProfanity lowerCase input = moderate_spec lowerCase input.
Proof. unfold cleanProfanity, moderate_spec. by rewrite cleanWords_mask. Qed.

Lemma profaneWords_ascii w :
  w ∈ profaneWords -> GoStrings.isASCII w = true /\ (6 <= String.length w)%nat.
Proof.
  unfold profaneWords. rewrite !elem_of_cons, elem_of_nil.
  intros [->|[->|[->|[]]]]; (split; [reflexivity | simpl; lia]).
Qed.

(** A token that lower-cases to a denylisted word has at least six bytes. *)
Lemma profane_token_length tok :
  ToLower tok ∈ profaneWords -> (6 <= String.length tok)%nat.
Proof.
  intros [Ha Hl]%profaneWords_ascii.
  pose proof (Casing.ToLower_ascii_length lowerCase tok Ha). lia.
Qed.

Lemma length_mask tok : (String.length (mask tok) <= String.length tok)%nat.
Proof.
  unfold maskToken. destruct (decide (ToLower tok ∈ profaneWords)) as [Hin|]; [| done].
  apply profane_token_length in Hin. simpl. lia.
Qed.

Lemma mask_nosep tok : hasByte " " tok = false -> hasByte " " (mask tok) = false.
Proof. unfold maskToken. by destruct (decide _). Qed.

Lemma mask_mask tok : mask (mask tok) = mask tok.
Proof.
  destruct (decide (ToLower tok ∈ profaneWords)) as [Hin|Hout].
  - assert (E : mask tok = "****") by (unfold maskToken; by rewrite decide_True).
    rewrite E. reflexivity.
  - assert (E : mask tok = tok) by (unfold maskToken; by rewrite decide_False).
    by rewrite !E.
Qed.

(** The tokens of the moderated text are the masked tokens of the input. *)
Lemma Split_moderate_spec text :
  GoStrings.Split (moderate_spec lowerCase text) " "
  = mask <$> GoStrings.Split text " ".
Proof.
  unfold moderate_spec. apply SplitJoin.Split_Join.
  - intros E%fmap_nil_inv. by apply SplitJoin.Split_nonempty in E.
  - apply Forall_fmap. eapply Forall_impl; [apply SplitJoin.Split_pieces_nosep |].
    intros tok. apply mask_nosep.
Qed.

Lemma moderate_spec_identity text :
  (forall tok, tok ∈ GoStrings.Split text " " -> ToLower tok ∉ profaneWords) ->
  moderate_spec lowerCase text = text.
Proof.
  intros Hclean. unfold moderate_spec.
  rewrite <- (SplitJoin.Join_Split text " ") at 2. f_equal.
  rewrite <- (list_fmap_id (GoStrings.Split text " ")) at 2.
  apply Forall_fmap_ext, Forall_forall. intros tok Hin.
  unfold maskToken. rewrite decide_False; [done | by apply Hclean].
Qed.

End ModerationFacts.

(** ** Claims about the moderator *)

Section ModerationClaims.

Variable lowerCase : Z -> Z.

(** C1. [cleanProfanity] splits its input on single spaces, replaces by
    ["****"] exactly the tokens whose lower-cased form is one of "kerfuffle",
    "sharbert", "fornax", leaves every other token (such as "kerfuffled") as it
    is, and joins the tokens with single spaces, so that the tokens of the
    result are the masked tokens of the input; on the sentence of the
    end-to-end scenario it returns "This is a **** opinion I need to share". *)
Theorem cleanProfanity_contract :
  (forall input, cleanProfanity lowerCase input = moderate_spec lowerCase input)
  /\ (forall input,
        GoStrings.Split (cleanProfanity lowerCase input) " "
        = maskToken lowerCase <$> GoStrings.Split input " ")
  /\ cleanProfanity lowerCase "This is a kerfuffle opinion I need to share"
     = "This is a **** opinion I need to share"
  /\ cleanProfanity lowerCase "kerfuffled" = "kerfuffled"
  /\ cleanProfanity lowerCase "Kerfuffle" = "****".
Proof.
  split; [apply cleanProfanity_moderate_spec |].
  split; [intros input; rewrite cleanProfanity_moderate_spec; apply Split_moderate_spec |].
  repeat split; vm_compute; reflexivity.
Qed.

(** C7. On a body of at most 140 characters none of whose space-delimited
    tokens is a denylisted word in any letter case, [cleanProfanity] is the
    identity, whatever the spaces of the body are. *)
Theorem cleanProfanity_identity body :
  Utf8.RuneCountInString body <= 140 ->
  (forall tok, tok ∈ GoStrings.Split body " " ->
               GoStrings.ToLower lowerCase tok ∉ profaneWords) ->
  cleanProfanity lowerCase body = body.
Proof.
  intros _ Hclean.
  rewrite cleanProfanity_moderate_spec. by apply moderate_spec_identity.
Qed.

(** C8. [cleanProfanity] is idempotent. *)
Theorem cleanProfanity_idempotent s :
  cleanProfanity lowerCase (cleanProfanity lowerCase s) = cleanProfanity lowerCase s.
Proof.
  rewrite !cleanProfanity_moderate_spec.
  unfold moderate_spec at 1. rewrite Split_moderate_spec.
  unfold moderate_spec. rewrite <- list_fmap_compose. f_equal.
  apply Forall_fmap_ext, Forall_forall. intros tok _. apply mask_mask.
Qed.

(** Moderation never lengthens its input. *)
Lemma length_cleanProfanity s :
  (String.length (cleanProfanity lowerCase s) <= String.length s)%nat.
Proof.
  rewrite cleanProfanity_moderate_spec. unfold moderate_spec.
  rewrite <- (SplitJoin.Join_Split s " ") at 2.
  pose proof (SplitJoin.Split_nonempty s " ") as Hne.
  destruct (GoStrings.Split s " ") as [|w ws]; [done |].
  rewrite fmap_cons. cbn [GoStrings.Join].
  rewrite !length_string_app, !SplitJoin.length_joinRest, length_fmap.
  pose proof (length_mask lowerCase w).
  assert (sum_list (String.length <$> (maskToken lowerCase <$> ws))
          <= sum_list (String.length <$> ws))%nat; [| lia].
  clear. induction ws as [|t ws IH]; [done |].
  rewrite !fmap_cons. cbn [sum_list sum_list_with id].
  pose proof (length_mask lowerCase t). lia.
Qed.

End ModerationClaims.

(** ** The handlers *)

Lemma RuneCountInString_le_len s : Utf8.RuneCountInString s <= len s.
Proof.
  unfold Utf8.RuneCountInString, len.
  pose proof (Casing.rangeString_length s 0). lia.
Qed.

Lemma wrap32_small z : - 2 ^ 31 <= z < 2 ^ 31 -> wrap32 z = z.
Proof.
  intros H. unfold wrap32. rewrite Z.mod_small; lia.
Qed.

Lemma wrap32_add_l a b : wrap32 (wrap32 a + b) = wrap32 (a + b).
Proof.
  unfold wrap32.
  replace ((a + 2 ^ 31) mod 2 ^ 32 - 2 ^ 31 + b + 2 ^ 31)
    with ((a + 2 ^ 31) mod 2 ^ 32 + b) by lia.
  rewrite Zplus_mod_idemp_l. f_equal. f_equal. lia.
Qed.

Lemma wrap32_range z : - 2 ^ 31 <= wrap32 z < 2 ^ 31.
Proof.
  unfold wrap32. pose proof (Z.mod_pos_bound (z + 2 ^ 31) (2 ^ 32)). lia.
Qed.

Section DecodingFacts.

Variable EqualFold : string -> string -> bool.

Lemma decodeMembers_UserRequest members : forall t saved,
  (decodeMembers (storeUserRequest EqualFold) members t saved).2 = None
  <-> saved = None
      /\ forallb (fun '(key, v) =>
                    negb (keyMatches EqualFold key "email")
                    || match v with JString _ | JNull => true | _ => false end)
                 members = true.
Proof.
  induction members as [|[key v] members IH]; intros t saved.
  - cbn. intuition congruence.
  - cbn [decodeMembers forallb]. unfold storeUserRequest at 1.
    destruct (keyMatches EqualFold key "email"); cbn [negb orb].
    + destruct v; cbn; rewrite ?IH; destruct saved; intuition congruence.
    + rewrite IH. intuition congruence.
Qed.

(** The envelopes of [userEnvelopeAccepted] are those that decode. *)
Lemma Decode_UserRequest_accepted body t :
  (Decode (storeUserRequest EqualFold) body t).2 = None
  <-> userEnvelopeAccepted EqualFold body = true.
Proof.
  destruct body as [| |v]; [done | done |].
  destruct v; try done. cbn [Decode userEnvelopeAccepted].
  rewrite decodeMembers_UserRequest. intuition congruence.
Qed.

End DecodingFacts.

Ltac counter_free :=
  unfold mret, mbind, Prog_ret, Prog_bind, call, trigger;
  repeat (cbn;
          match goal with
          | |- counterFree (Ret _) => apply counterFree_Ret
          | |- counterFree (Vis Hits_Load _) => apply counterFree_Load; intros
          | |- counterFree (Vis (Outside _) _) => apply counterFree_Outside; intros
          | |- counterFree (match ?x with _ => _ end) => destruct x
          end).

Section HandlerFacts.

Variable lowerCase : Z -> Z.
Variable EqualFold : string -> string -> bool.
Variable uuid_Parse : string -> option UUID.
Variable uuid_String : UUID -> string.
Variable time_Format : Time -> string.
Variable World : Type.
Variable outside : forall X : Type, Ext X -> World -> X * World.

Local Abbreviation exec := (run World outside).
Local Abbreviation ServeHTTP' :=
  (ServeHTTP lowerCase EqualFold uuid_Parse uuid_String time_Format).
Local Abbreviation serve' :=
  (serve lowerCase EqualFold uuid_Parse uuid_String time_Format World outside).
Local Abbreviation serveAll' :=
  (serveAll lowerCase EqualFold uuid_Parse uuid_String time_Format World outside).

(** Running a program that is free of counter updates leaves the counter. *)
Lemma counterFree_run {A : Type} (p : Prog A) :
  counterFree p -> forall hits w, (exec p hits w).1.1.2 = hits.
Proof.
  induction 1 as [a | k Hk IH | X o k Hk IH]; intros hits w; cbn.
  - reflexivity.
  - specialize (IH hits hits w).
    destruct (exec (k hits) hits w) as [[[a h] w'] tr]. exact IH.
  - destruct (outside X o w) as [x w1]. specialize (IH x hits w1).
    destruct (exec (k x) hits w1) as [[[a h] w'] tr]. exact IH.
Qed.

(** Every route but the [/app/] tree and the reset is free of counter updates. *)
Lemma ServeHTTP_counterFree cfg_platform r :
  instrumented r = false -> isReset r = false ->
  counterFree (ServeHTTP' cfg_platform r).
Proof.
  unfold instrumented, isReset, ServeHTTP. intros Hi Hr.
  destruct (Request_Pattern r); try discriminate; unfold registered.
  - unfold healthzHandler. counter_free.
  - unfold createChirpHandler. counter_free.
  - unfold getChirpsHandler. counter_free.
  - unfold getChirpByIDHandler. counter_free.
  - unfold adminMetricsHandler. counter_free.
  - unfold createUserHandler. counter_free.
  - counter_free.
  - counter_free.
Qed.

Lemma serve_other cfg w r :
  instrumented r = false -> isReset r = false -> (serve' cfg w r).1.2 = cfg.
Proof.
  intros Hi Hr. unfold serve.
  pose proof (counterFree_run _ (ServeHTTP_counterFree (platform cfg) r Hi Hr)
                              (fileserverHits cfg) w) as H.
  destruct (exec _ _ _) as [[[resp h] w'] tr]. cbn in *. subst h. by destruct cfg.
Qed.

Lemma serve_instrumented cfg w r :
  instrumented r = true ->
  (serve' cfg w r).1.2
  = {| fileserverHits := wrap32 (fileserverHits cfg + 1); platform := platform cfg |}.
Proof.
  unfold instrumented, serve, ServeHTTP. intros Hi.
  destruct (Request_Pattern r); try discriminate. cbn.
  destruct (outside _ _ w) as [resp w1]. reflexivity.
Qed.

(** In development mode a reset leaves the counter at zero, whatever the
    store answers. *)
Lemma serve_reset_dev cfg w r :
  isReset r = true -> platform cfg = "dev" ->
  (serve' cfg w r).1.2 = {| fileserverHits := 0; platform := "dev" |}.
Proof.
  unfold isReset, serve, ServeHTTP. intros Hr Hdev.
  destruct (Request_Pattern r); try discriminate. rewrite Hdev. cbn.
  destruct (outside _ DeleteAllUsers w) as [[e|] w1]; reflexivity.
Qed.

Lemma serveAll_hits reqs : forall cfg w,
  - 2 ^ 31 <= fileserverHits cfg < 2 ^ 31 ->
  forallb (fun r => negb (isReset r)) reqs = true ->
  fileserverHits (serveAll' cfg w reqs).1
  = wrap32 (fileserverHits cfg + countInstrumented reqs)
  /\ platform (serveAll' cfg w reqs).1 = platform cfg.
Proof.
  induction reqs as [|r reqs IH]; intros cfg w Hrange Hall.
  - cbn. rewrite Z.add_0_r, wrap32_small by done. done.
  - cbn [forallb] in Hall. apply andb_true_iff in Hall as [Hr Hall].
    apply negb_true_iff in Hr. cbn [serveAll countInstrumented].
    destruct (instrumented r) eqn:Hi.
    + pose proof (serve_instrumented cfg w r Hi) as Hs.
      destruct (serve' cfg w r) as [[resp cfg'] w']. cbn in Hs. subst cfg'.
      destruct (IH {| fileserverHits := wrap32 (fileserverHits cfg + 1);
                      platform := platform cfg |} w') as [H1 H2];
        [apply wrap32_range | done |].
      split; [| exact H2]. rewrite H1. cbn. rewrite wrap32_add_l. f_equal. lia.
    + pose proof (serve_other cfg w r Hi Hr) as Hs.
      destruct (serve' cfg w r) as [[resp cfg'] w']. cbn in Hs. subst cfg'.
      destruct (IH cfg w') as [H1 H2]; [done | done |].
      split; [| exact H2]. rewrite H1. f_equal.
Qed.

Lemma metricsReport_hits cfg w :
  metricsReport World outside cfg w = TextBody (metricsPage (fileserverHits cfg)).
Proof. reflexivity. Qed.

End HandlerFacts.

Section HandlerClaims.

Variable lowerCase : Z -> Z.
Variable EqualFold : string -> string -> bool.
Variable uuid_Parse : string -> option UUID.
Variable uuid_String : UUID -> string.
Variable time_Format : Time -> string.
Variable World : Type.
Variable outside : forall X : Type, Ext X -> World -> X * World.

Local Abbreviation exec := (run World outside).

(** C2, as the code has it. The envelope is checked before the length: a
    chirp-creation request whose envelope does not decode is answered 400
    with the payload [{"error":"Invalid request payload"}], whatever the
    length of its body; one whose envelope decodes to a body of more than 140
    characters is answered 400 with the payload
    [{"error":"Chirp is too long"}]. In both cases the handler is a bare
    return: it performs no effect (no store query, no change of the counter
    or of the world) and its answer does not involve the moderator. *)
Theorem createChirp_rejects_long_body r req err hits w :
  Decode (storeCreateChirpRequest EqualFold uuid_Parse) (Request_Body r)
         {| CreateChirpRequest_Body := ""; CreateChirpRequest_UserID := uuid_Nil |}
    = (req, err) ->
  err <> None \/ 140 < Utf8.RuneCountInString (CreateChirpRequest_Body req) ->
  let msg := match err with
             | None => "Chirp is too long"
             | Some _ => "Invalid request payload"
             end in
  createChirpHandler lowerCase EqualFold uuid_Parse uuid_String time_Format r
    = Ret (respondWithError StatusBadRequest msg)
  /\ exec (createChirpHandler lowerCase EqualFold uuid_Parse uuid_String time_Format r) hits w
     = ({| StatusCode := 400;
           ContentType := Some "application/json";
           Body := JSONBody (JObject [("error", JString msg)]) |},
        hits, w, []).
Proof.
  intros Hdec Hbad msg.
  pose proof (RuneCountInString_le_len (CreateChirpRequest_Body req)) as Hle.
  assert (E : createChirpHandler lowerCase EqualFold uuid_Parse uuid_String time_Format r
              = Ret (respondWithError StatusBadRequest msg)).
  { unfold createChirpHandler. rewrite Hdec. destruct err as [e|]; [reflexivity |].
    destruct Hbad as [Hbad|Hlong]; [done |].
    destruct (Z.ltb_spec 140 (len (CreateChirpRequest_Body req))); [reflexivity | lia]. }
  split; [exact E |]. rewrite E. reflexivity.
Qed.

(** C4. Outside development mode the reset handler answers 403 with an
    error message and is a bare return: the counter and the world are as
    before and [DeleteAllUsers] is not called. *)
Theorem adminReset_forbidden_outside_dev cfg_platform r hits w :
  cfg_platform <> "dev" ->
  adminResetHandler cfg_platform r
    = Ret (respondWithError StatusForbidden "This endpoint is only available in development")
  /\ exec (adminResetHandler cfg_platform r) hits w
     = ({| StatusCode := 403;
           ContentType := Some "application/json";
           Body := JSONBody (JObject [("error",
                     JString "This endpoint is only available in development")]) |},
        hits, w, []).
Proof.
  intros Hne.
  assert (E : adminResetHandler cfg_platform r
              = Ret (respondWithError StatusForbidden
                       "This endpoint is only available in development")).
  { unfold adminResetHandler.
    destruct (String.eqb_spec cfg_platform "dev"); [done | reflexivity]. }
  split; [exact E |]. rewrite E. reflexivity.
Qed.

(** C10. In development mode the reset handler stores zero in the counter
    and only then calls [DeleteAllUsers]; when that call fails the answer is
    500 and the counter stays at zero. *)
Theorem adminReset_zeroes_before_delete r hits w e w' :
  outside _ DeleteAllUsers w = (Some e, w') ->
  exec (adminResetHandler "dev" r) hits w
  = (respondWithError StatusInternalServerError "Error deleting users",
     0, w', [Ev (Hits_Store 0); Ev (Outside DeleteAllUsers)])
  /\ StatusCode (respondWithError StatusInternalServerError "Error deleting users") = 500.
Proof.
  intros Hdel. split; [| reflexivity].
  cbn. rewrite Hdel. reflexivity.
Qed.

(** C5. Looking a chirp up by identifier: 400 when the path segment does not
    parse as a UUID (the store is not asked); otherwise the store is asked
    once, and the answer is 404 when it reports [sql.ErrNoRows], 500 on any
    other error, and 200 with the chirp's JSON (id, created_at, updated_at,
    body, user_id) on success. *)
Theorem getChirpByID_outcomes r hits w :
  let out := exec (getChirpByIDHandler uuid_Parse uuid_String time_Format r) hits w in
  match uuid_Parse (PathValue (Request_PathValues r) "chirpID") with
  | None =>
    out = ({| StatusCode := 400; ContentType := Some "application/json";
              Body := JSONBody (JObject [("error", JString "Invalid chirp ID format")]) |},
           hits, w, [])
  | Some chirpID =>
    match outside _ (GetChirpByID chirpID) w with
    | (Err sql_ErrNoRows, w1) =>
      out = ({| StatusCode := 404; ContentType := Some "application/json";
                Body := JSONBody (JObject [("error", JString "Chirp not found")]) |},
             hits, w1, [Ev (Outside (GetChirpByID chirpID))])
    | (Err _, w1) =>
      out.1.1.1 = {| StatusCode := 500; ContentType := Some "application/json";
                     Body := JSONBody (JObject [("error", JString "Error getting chirp")]) |}
      /\ filter isStoreCall out.2 = [Ev (Outside (GetChirpByID chirpID))]
    | (Ok chirp, w1) =>
      out = ({| StatusCode := 200; ContentType := Some "application/json";
                Body := JSONBody (JObject
                  [("id", JString (uuid_String (database.Chirp_ID chirp)));
                   ("created_at", JString (time_Format (database.Chirp_CreatedAt chirp)));
                   ("updated_at", JString (time_Format (database.Chirp_UpdatedAt chirp)));
                   ("body", JString (database.Chirp_Body chirp));
                   ("user_id", JString (uuid_String (database.Chirp_UserID chirp)))]) |},
             hits, w1, [Ev (Outside (GetChirpByID chirpID))])
    end
  end.
Proof.
  cbv zeta. unfold getChirpByIDHandler.
  destruct (uuid_Parse (PathValue (Request_PathValues r) "chirpID")) as [chirpID|];
    [| reflexivity].
  cbn. destruct (outside _ (GetChirpByID chirpID) w) as [[chirp|e] w1] eqn:E; [reflexivity |].
  destruct e; cbn;
    try (destruct (outside _ (log_Printf _ _) w1) as [[] w2]; split; reflexivity).
  reflexivity.
Qed.

(** C6, as the code has it. Creating a user: 400 when the body is empty, is
    not JSON, is a JSON value other than an object or [null], or is an object
    with an [email] member that is neither a string nor [null]; every other
    envelope, the object without an email field among them, is handed to
    the store with the decoded email (the empty string when none was given),
    and the answer is 201 with the user's JSON (id, created_at, updated_at,
    email) when the store succeeds and 500 when it fails. *)
Theorem createUser_outcomes r hits w :
  let out := exec (createUserHandler EqualFold uuid_String time_Format r) hits w in
  (if userEnvelopeAccepted EqualFold (Request_Body r) then
     let email :=
       UserRequest_Email
         (Decode (storeUserRequest EqualFold) (Request_Body r)
                 {| UserRequest_Email := "" |}).1 in
     let '(id, w1) := outside _ uuid_New w in
     let '(createdAt, w2) := outside _ time_Now w1 in
     let '(updatedAt, w3) := outside _ time_Now w2 in
     match outside _ (CreateUser
                        {| database.CreateUserParams_ID := id;
                           database.CreateUserParams_Email := email;
                           database.CreateUserParams_CreatedAt := createdAt;
                           database.CreateUserParams_UpdatedAt := updatedAt |}) w3 with
     | (Ok dbUser, w4) =>
       out.1.1.1
       = {| StatusCode := 201; ContentType := Some "application/json";
            Body := JSONBody (JObject
              [("id", JString (uuid_String (database.User_ID dbUser)));
               ("created_at", JString (time_Format (database.User_CreatedAt dbUser)));
               ("updated_at", JString (time_Format (database.User_UpdatedAt dbUser)));
               ("email", JString (database.User_Email dbUser))]) |}
     | (Err _, w4) =>
       out.1.1.1
       = {| StatusCode := 500; ContentType := Some "application/json";
            Body := JSONBody (JObject [("error", JString "Error creating user")]) |}
     end
   else
     out = ({| StatusCode := 400; ContentType := Some "application/json";
               Body := JSONBody (JObject [("error", JString "Invalid request payload")]) |},
            hits, w, []))
  /\ userEnvelopeAccepted EqualFold BodyEmpty = false
  /\ userEnvelopeAccepted EqualFold BodyInvalid = false
  /\ userEnvelopeAccepted EqualFold (BodyJSON (JObject [])) = true.
Proof.
  cbv zeta. split; [| done].
  unfold createUserHandler.
  pose proof (Decode_UserRequest_accepted EqualFold (Request_Body r)
                {| UserRequest_Email := "" |}) as Hacc.
  destruct (Decode (storeUserRequest EqualFold) (Request_Body r)
                   {| UserRequest_Email := "" |}) as [userReq err].
  cbn [fst snd] in *.
  destruct (userEnvelopeAccepted EqualFold (Request_Body r)).
  - assert (err = None) as -> by (by apply Hacc).
    cbn.
    destruct (outside _ uuid_New w) as [id w1].
    destruct (outside _ time_Now w1) as [createdAt w2].
    destruct (outside _ time_Now w2) as [updatedAt w3].
    destruct (outside _ (CreateUser _) w3) as [[dbUser|e] w4]; reflexivity.
  - destruct err as [e|]; [reflexivity |].
    destruct Hacc as [Hacc _]. by specialize (Hacc eq_refl).
Qed.

(** C9. Moderation never lengthens its input; hence a chirp that passes the
    length check (a decoded body of at most 140 bytes) reaches the store's
    [CreateChirp] exactly once, with the moderated body, of at most 140
    bytes. *)
Theorem moderated_body_within_limit r req hits w :
  Decode (storeCreateChirpRequest EqualFold uuid_Parse) (Request_Body r)
         {| CreateChirpRequest_Body := ""; CreateChirpRequest_UserID := uuid_Nil |}
    = (req, None) ->
  len (CreateChirpRequest_Body req) <= 140 ->
  (forall s, len (cleanProfanity lowerCase s) <= len s)
  /\ (forall tok, GoStrings.ToLower lowerCase tok ∈ profaneWords ->
        6 <= len tok /\ len (maskToken lowerCase tok) = 4)
  /\ createChirpBodies
       (exec (createChirpHandler lowerCase EqualFold uuid_Parse uuid_String time_Format r)
             hits w).2
     = [cleanProfanity lowerCase (CreateChirpRequest_Body req)]
  /\ len (cleanProfanity lowerCase (CreateChirpRequest_Body req)) <= 140.
Proof.
  intros Hdec Hlen.
  assert (Hshort : forall s, len (cleanProfanity lowerCase s) <= len s).
  { intros s. unfold len. pose proof (length_cleanProfanity lowerCase s). lia. }
  split; [exact Hshort |]. split; [| split].
  - intros tok Hin. pose proof (profane_token_length lowerCase tok Hin).
    unfold maskToken, len. rewrite decide_True by done. split; [lia | reflexivity].
  - unfold createChirpHandler. rewrite Hdec.
    destruct (Z.ltb_spec 140 (len (CreateChirpRequest_Body req))); [lia |].
    generalize (cleanProfanity lowerCase (CreateChirpRequest_Body req)) as cleaned.
    intros cleaned. cbn.
    destruct (outside _ uuid_New w) as [id w1].
    destruct (outside _ time_Now w1) as [createdAt w2].
    destruct (outside _ time_Now w2) as [updatedAt w3].
    destruct (outside _ (CreateChirp _) w3) as [[chirp|e] w4]; cbn; [reflexivity |].
    destruct (outside _ (log_Printf _ _) w4) as [[] w5]. reflexivity.
  - specialize (Hshort (CreateChirpRequest_Body req)). lia.
Qed.

(** C3, as the code has it. Starting from a counter at zero and serving any
    sequence of requests without a reset, of which [N] go through the
    instrumentation wrapper: the counter is [N] wrapped to 32 bits, and the
    metrics report embeds exactly [N] as long as [N < 2^31]. A request to
    the [/app/] tree adds one, a request to any other route but the reset
    leaves the counter, and after a reset in development mode the report
    embeds 0. *)
Theorem hit_counter_counts_instrumented cfg w reqs :
  fileserverHits cfg = 0 ->
  forallb (fun r => negb (isReset r)) reqs = true ->
  let N := countInstrumented reqs in
  let final :=
    serveAll lowerCase EqualFold uuid_Parse uuid_String time_Format World outside
             cfg w reqs in
  let serve1 :=
    serve lowerCase EqualFold uuid_Parse uuid_String time_Format World outside in
  fileserverHits final.1 = wrap32 N
  /\ metricsReport World outside final.1 final.2 = TextBody (metricsPage (wrap32 N))
  /\ (N < 2 ^ 31 ->
      metricsReport World outside final.1 final.2 = TextBody (metricsPage N))
  /\ (forall c v r, instrumented r = true ->
        fileserverHits (serve1 c v r).1.2 = wrap32 (fileserverHits c + 1))
  /\ (forall c v r, instrumented r = false -> isReset r = false ->
        fileserverHits (serve1 c v r).1.2 = fileserverHits c)
  /\ (forall c v r, isReset r = true -> platform c = "dev" ->
        metricsReport World outside (serve1 c v r).1.2 (serve1 c v r).2
        = TextBody (metricsPage 0)).
Proof.
  intros H0 Hall N final serve1.
  assert (HN : 0 <= N).
  { subst N. clear. induction reqs as [|r reqs IH]; cbn; [lia |].
    destruct (instrumented r); lia. }
  destruct (serveAll_hits lowerCase EqualFold uuid_Parse uuid_String time_Format
              World outside reqs cfg w) as [Hh _]; [rewrite H0; lia | done |].
  rewrite H0, Z.add_0_l in Hh. fold N in Hh. fold final in Hh.
  split; [exact Hh |].
  split; [by rewrite metricsReport_hits, Hh |].
  split; [intros Hsmall; by rewrite metricsReport_hits, Hh, wrap32_small by lia |].
  split; [intros c v r Hi; unfold serve1; by rewrite serve_instrumented |].
  split; [intros c v r Hi Hr; unfold serve1; by rewrite serve_other |].
  intros c v r Hr Hdev. unfold serve1.
  by rewrite metricsReport_hits, serve_reset_dev.
Qed.

End HandlerClaims.

(** ** The moderator on examples *)

(** Letter case does not matter, punctuation does; with the Kelvin sign
    (U+212A, whose lower case is "k") for its first letter, "kerfuffle" is
    masked as well. *)
Example cleanProfanity_examples :
  cleanProfanity Sample.lowerCase "KERFUFFLE sharbert! kerfuffle. fOrNaX" = "**** sharbert! kerfuffle. ****"
  /\ cleanProfanity Sample.lowerCase " sharbert  sharbert " = " ****  **** "
  /\ cleanProfanity Sample.lowerCase "" = ""
  /\ cleanProfanity Sample.lowerCase
       (String (byte_of 0xE2) (String (byte_of 0x84) (String (byte_of 0xAA) "erfuffle")))
     = "****".
Proof. repeat split; vm_compute; reflexivity. Qed.

(** ** The claims on concrete inputs *)

Lemma cleanProfanity_identity_witness :
  cleanProfanity Sample.lowerCase "  mild   Kerfuffled talk, no sharberts "
  = "  mild   Kerfuffled talk, no sharberts ".
Proof.
  apply (cleanProfanity_identity Sample.lowerCase).
  - vm_compute. discriminate.
  - apply Forall_forall. apply (bool_decide_unpack _). vm_compute. exact I.
Defined.

Lemma createChirp_rejects_long_body_witness :
  run Sample.World Sample.outside
      (createChirpHandler Sample.lowerCase Sample.EqualFold Sample.uuid_Parse
                          Sample.uuid_String Sample.time_Format Sample.longChirpRequest)
      0 Sample.emptyWorld
  = ({| StatusCode := 400; ContentType := Some "application/json";
        Body := JSONBody (JObject [("error", JString "Chirp is too long")]) |},
     0, Sample.emptyWorld, []).
Proof.
  refine (proj2 (createChirp_rejects_long_body
            Sample.lowerCase Sample.EqualFold Sample.uuid_Parse Sample.uuid_String
            Sample.time_Format Sample.World Sample.outside Sample.longChirpRequest
            {| CreateChirpRequest_Body := Sample.longBody;
               CreateChirpRequest_UserID :=
                 default uuid_Nil (Sample.uuid_Parse "123e4567-e89b-12d3-a456-426614174000") |}
            None 0 Sample.emptyWorld _ _)).
  - vm_compute. reflexivity.
  - right. vm_compute. reflexivity.
Defined.

Lemma adminReset_forbidden_outside_dev_witness :
  run Sample.World Sample.outside
      (adminResetHandler "production" (Sample.request POST_admin_reset "/admin/reset" BodyEmpty))
      7 Sample.emptyWorld
  = ({| StatusCode := 403; ContentType := Some "application/json";
        Body := JSONBody (JObject [("error",
                  JString "This endpoint is only available in development")]) |},
     7, Sample.emptyWorld, []).
Proof.
  eapply proj2, adminReset_forbidden_outside_dev. discriminate.
Defined.

Lemma adminReset_zeroes_before_delete_witness :
  run Sample.World Sample.outside
      (adminResetHandler "dev" (Sample.request POST_admin_reset "/admin/reset" BodyEmpty))
      7 Sample.brokenWorld
  = (respondWithError StatusInternalServerError "Error deleting users",
     0, Sample.brokenWorld, [Ev (Hits_Store 0); Ev (Outside DeleteAllUsers)]).
Proof.
  eapply proj1, adminReset_zeroes_before_delete. reflexivity.
Defined.

Lemma moderated_body_within_limit_witness :
  createChirpBodies
    (run Sample.World Sample.outside
         (createChirpHandler Sample.lowerCase Sample.EqualFold Sample.uuid_Parse
                             Sample.uuid_String Sample.time_Format Sample.chirpRequest)
         0 Sample.emptyWorld).2
  = [cleanProfanity Sample.lowerCase "This is a kerfuffle opinion I need to share"].
Proof.
  eapply (fun H1 H2 => proj1 (proj2 (proj2 (moderated_body_within_limit
            Sample.lowerCase Sample.EqualFold Sample.uuid_Parse Sample.uuid_String
            Sample.time_Format Sample.World Sample.outside Sample.chirpRequest
            {| CreateChirpRequest_Body := "This is a kerfuffle opinion I need to share";
               CreateChirpRequest_UserID := _ |} 0 Sample.emptyWorld H1 H2)))).
  - vm_compute. reflexivity.
  - vm_compute. discriminate.
Defined.

Lemma hit_counter_counts_instrumented_witness :
  metricsReport Sample.World Sample.outside
    (serveAll Sample.lowerCase Sample.EqualFold Sample.uuid_Parse Sample.uuid_String
              Sample.time_Format Sample.World Sample.outside
              Sample.devConfig Sample.emptyWorld Sample.mixedTraffic).1
    (serveAll Sample.lowerCase Sample.EqualFold Sample.uuid_Parse Sample.uuid_String
              Sample.time_Format Sample.World Sample.outside
              Sample.devConfig Sample.emptyWorld Sample.mixedTraffic).2
  = TextBody (metricsPage 3).
Proof.
  refine (proj1 (proj2 (proj2 (hit_counter_counts_instrumented
            Sample.lowerCase Sample.EqualFold Sample.uuid_Parse Sample.uuid_String
            Sample.time_Format Sample.World Sample.outside
            Sample.devConfig Sample.emptyWorld Sample.mixedTraffic _ _))) _).
  - reflexivity.
  - reflexivity.
  - vm_compute. reflexivity.
Defined.

(** ** Where the code departs from the claims as written *)

Lemma forallb_repeat {A : Type} (f : A -> bool) x n :
  f x = true -> forallb f (repeat x n) = true.
Proof. intros Hx. induction n as [|n IH]; cbn; [done | by rewrite Hx, IH]. Qed.

Lemma countInstrumented_repeat r n :
  instrumented r = true -> countInstrumented (repeat r n) = Z.of_nat n.
Proof.
  intros Hr. induction n as [|n IH]; [done |].
  cbn [repeat countInstrumented]. rewrite Hr, IH. lia.
Qed.

(** C2 as written fails: a request whose body has 141 characters and whose
    [user_id] is not a UUID is refused by the envelope check, which comes
    first; the payload is [{"error":"Invalid request payload"}], not
    [{"error":"Chirp is too long"}]. *)
Lemma createChirp_long_body_bad_user_id :
  Utf8.RuneCountInString Sample.longBody = 141
  /\ run Sample.World Sample.outside
         (createChirpHandler Sample.lowerCase Sample.EqualFold Sample.uuid_Parse
                             Sample.uuid_String Sample.time_Format
                             Scenario.longChirpBadUserRequest)
         0 Sample.emptyWorld
     = ({| StatusCode := 400; ContentType := Some "application/json";
           Body := JSONBody (JObject [("error", JString "Invalid request payload")]) |},
        0, Sample.emptyWorld, [])
  /\ Body (run Sample.World Sample.outside
             (createChirpHandler Sample.lowerCase Sample.EqualFold Sample.uuid_Parse
                                 Sample.uuid_String Sample.time_Format
                                 Scenario.longChirpBadUserRequest)
             0 Sample.emptyWorld).1.1.1
     <> JSONBody (JObject [("error", JString "Chirp is too long")]).
Proof.
  split; [vm_compute; reflexivity |].
  split; [vm_compute; reflexivity |].
  vm_compute. discriminate.
Qed.

(** C3 as written fails: after 2^31 requests to the [/app/] tree, none to
    any other route, the 32-bit counter has wrapped and the report embeds
    -2147483648, not 2147483648. *)
Lemma hit_counter_wraps_at_2_31 :
  let reqs := repeat Sample.appRequest (Z.to_nat (2 ^ 31)) in
  let final :=
    serveAll Sample.lowerCase Sample.EqualFold Sample.uuid_Parse Sample.uuid_String
             Sample.time_Format Sample.World Sample.outside
             Sample.devConfig Sample.emptyWorld reqs in
  countInstrumented reqs = 2147483648
  /\ metricsReport Sample.World Sample.outside final.1 final.2
     = TextBody (metricsPage (-2147483648))
  /\ metricsReport Sample.World Sample.outside final.1 final.2
     <> TextBody (metricsPage 2147483648).
Proof.
  assert (Hn : Z.of_nat (Z.to_nat (2 ^ 31)) = 2147483648) by (apply Z2Nat.id; lia).
  revert Hn. generalize (Z.to_nat (2 ^ 31)) as n. intros n Hn reqs final.
  assert (Hc : countInstrumented reqs = 2147483648)
    by (unfold reqs; rewrite countInstrumented_repeat by reflexivity; exact Hn).
  destruct (serveAll_hits Sample.lowerCase Sample.EqualFold Sample.uuid_Parse
              Sample.uuid_String Sample.time_Format Sample.World Sample.outside
              reqs Sample.devConfig Sample.emptyWorld) as [Hh _].
  { cbn. lia. }
  { unfold reqs. by apply forallb_repeat. }
  fold final in Hh. rewrite Hc in Hh.
  assert (Hw : fileserverHits final.1 = -2147483648) by (rewrite Hh; reflexivity).
  split; [exact Hc |]. rewrite !metricsReport_hits, Hw.
  split; [reflexivity |]. vm_compute. discriminate.
Qed.

(** C6 as written fails: the body [{}], an object without an email field, is
    not refused; the user is created with the empty email and the answer is
    201. *)
Lemma createUser_accepts_object_without_email :
  (run Sample.World Sample.outside
       (createUserHandler Sample.EqualFold Sample.uuid_String Sample.time_Format
                          Sample.emptyObjectUserRequest)
       0 Sample.emptyWorld).1.1.1
  = {| StatusCode := 201; ContentType := Some "application/json";
       Body := JSONBody (JObject
         [("id", JString "00000000-0000-0000-0000-000000000001");
          ("created_at", JString "1700000000");
          ("updated_at", JString "1700000001");
          ("email", JString "")]) |}
  /\ StatusCode
       (run Sample.World Sample.outside
            (createUserHandler Sample.EqualFold Sample.uuid_String Sample.time_Format
                               Sample.emptyObjectUserRequest)
            0 Sample.emptyWorld).1.1.1
     <> 400.
Proof. split; [vm_compute; reflexivity | vm_compute; discriminate]. Qed.

(** * Further properties of the program *)

(** ** The moderator *)

Section ModeratorMore.

Variable lowerCase : Z -> Z.

Local Abbreviation profane tok :=
  (GoStrings.ToLower lowerCase tok ∈ profaneWords).

Lemma mask_clean tok :
  GoStrings.ToLower lowerCase (maskToken lowerCase tok) ∉ profaneWords.
Proof.
  unfold maskToken. destruct (decide (profane tok)) as [Hin|Hout]; [| exact Hout].
  apply (bool_decide_unpack _). vm_compute. exact I.
Qed.

Lemma mask_fixed_iff tok : maskToken lowerCase tok = tok <-> ~ profane tok.
Proof.
  unfold maskToken. destruct (decide (profane tok)) as [Hin|Hout].
  - split; [| done]. intros E. apply profane_token_length in Hin.
    rewrite <- E in Hin. cbn in Hin. lia.
  - done.
Qed.

Lemma Split_cleanProfanity_clean s :
  Forall (fun tok => ~ profane tok)
         (GoStrings.Split (cleanProfanity lowerCase s) " ").
Proof.
  rewrite cleanProfanity_moderate_spec, Split_moderate_spec.
  apply Forall_fmap, Forall_forall. intros tok _. apply mask_clean.
Qed.

Lemma cleanProfanity_twice s :
  cleanProfanity lowerCase (cleanProfanity lowerCase s) = cleanProfanity lowerCase s.
Proof.
  rewrite (cleanProfanity_moderate_spec lowerCase (cleanProfanity lowerCase s)).
  apply moderate_spec_identity. apply Forall_forall, Split_cleanProfanity_clean.
Qed.

(** X1. The moderated text holds no denylisted token, and it has as many
    space-delimited tokens as the input. *)
Theorem cleanProfanity_output_clean s :
  Forall (fun tok => ~ profane tok)
         (GoStrings.Split (cleanProfanity lowerCase s) " ")
  /\ length (GoStrings.Split (cleanProfanity lowerCase s) " ")
     = length (GoStrings.Split s " ").
Proof.
  split; [apply Split_cleanProfanity_clean |].
  by rewrite cleanProfanity_moderate_spec, Split_moderate_spec, length_fmap.
Qed.

(** X2. Moderation changes a text exactly when one of its tokens is a
    denylisted word. *)
Theorem cleanProfanity_fixed_iff s :
  cleanProfanity lowerCase s = s
  <-> Forall (fun tok => ~ profane tok) (GoStrings.Split s " ").
Proof.
  split.
  - intros E.
    pose proof (Split_moderate_spec lowerCase s) as Hs.
    rewrite <- cleanProfanity_moderate_spec, E in Hs.
    rewrite <- (list_fmap_id (GoStrings.Split s " ")) in Hs at 1.
    apply Forall_fmap_ext in Hs.
    eapply Forall_impl; [exact Hs |].
    cbn. intros tok Ht. apply mask_fixed_iff. by symmetry.
  - intros Hall. rewrite cleanProfanity_moderate_spec.
    apply moderate_spec_identity. by apply Forall_forall.
Qed.

Lemma sum_mask_le (ws : list string) :
  (sum_list (String.length <$> (maskToken lowerCase <$> ws))
   <= sum_list (String.length <$> ws))%nat.
Proof.
  induction ws as [|t ws IH]; [done |].
  rewrite !fmap_cons. cbn [sum_list sum_list_with id].
  pose proof (length_mask lowerCase t). lia.
Qed.

Lemma sum_mask_lt (ws : list string) :
  Exists (fun tok => profane tok) ws ->
  (sum_list (String.length <$> (maskToken lowerCase <$> ws)) + 2
   <= sum_list (String.length <$> ws))%nat.
Proof.
  induction 1 as [t ws Ht | t ws _ IH];
    rewrite !fmap_cons; cbn [sum_list sum_list_with id].
  - pose proof (sum_mask_le ws). pose proof (profane_token_length lowerCase t Ht).
    assert (E : maskToken lowerCase t = "****")
      by (unfold maskToken; by rewrite decide_True).
    rewrite E. cbn [String.length]. lia.
  - pose proof (length_mask lowerCase t). lia.
Qed.

(** X3. A text with a denylisted token comes out at least two bytes shorter. *)
Theorem cleanProfanity_shortens s :
  Exists (fun tok => profane tok) (GoStrings.Split s " ") ->
  len (cleanProfanity lowerCase s) + 2 <= len s.
Proof.
  intros Hex. unfold len.
  rewrite cleanProfanity_moderate_spec. unfold moderate_spec.
  rewrite <- (SplitJoin.Join_Split s " ") at 2.
  pose proof (sum_mask_lt _ Hex) as Hsum.
  destruct (GoStrings.Split s " ") as [|w ws]; [by apply Exists_nil in Hex |].
  rewrite !fmap_cons in Hsum. cbn [sum_list sum_list_with id] in Hsum.
  rewrite fmap_cons. cbn [GoStrings.Join].
  rewrite !length_string_app, !SplitJoin.length_joinRest, length_fmap.
  pose proof (sum_mask_le ws). lia.
Qed.

End ModeratorMore.

Lemma cleanProfanity_shortens_witness :
  len (cleanProfanity Sample.lowerCase "a fornax b") + 2 <= len "a fornax b".
Proof.
  apply cleanProfanity_shortens.
  apply (bool_decide_unpack _). vm_compute. exact I.
Defined.

(** ** The handlers *)

Lemma string_app_cancel_r (a b c : string) : a +:+ c = b +:+ c -> a = b.
Proof.
  revert b. induction a as [|x a IH]; intros [|y b] E.
  - reflexivity.
  - apply (f_equal String.length) in E.
    rewrite string_app_nil_l, length_string_app in E. cbn in E. lia.
  - apply (f_equal String.length) in E.
    rewrite string_app_nil_l, length_string_app in E. cbn in E. lia.
  - rewrite !string_app_cons in E. injection E as -> E. f_equal. by apply IH.
Qed.

Lemma fmt_d_inj a b : fmt_d a = fmt_d b -> a = b.
Proof.
  unfold fmt_d. intros E.
  assert (Hn : forall z, Z.to_int z <> Decimal.Pos Decimal.Nil
                         /\ Z.to_int z <> Decimal.Neg Decimal.Nil).
  { intros [|p|p]; cbn; (split; [| try discriminate]); try discriminate;
      intros [= H]; by apply DecimalPos.Unsigned.to_uint_nonnil in H. }
  apply (f_equal NilZero.int_of_string) in E.
  rewrite !NilZero.isi in E by apply Hn.
  injection E as E. by apply DecimalZ.to_int_inj.
Qed.

(** X15. The metrics page determines the count: different counter values
    give different pages. *)
Theorem metricsPage_distinct a b : a <> b -> metricsPage a <> metricsPage b.
Proof.
  intros Hne E. apply Hne. unfold metricsPage in E.
  apply (inj (String.append _)) in E.
  apply string_app_cancel_r in E. by apply fmt_d_inj.
Qed.

Section HandlerMore.

Variable lowerCase : Z -> Z.
Variable EqualFold : string -> string -> bool.
Variable uuid_Parse : string -> option UUID.
Variable uuid_String : UUID -> string.
Variable time_Format : Time -> string.
Variable World : Type.
Variable outside : forall X : Type, Ext X -> World -> X * World.

Local Abbreviation exec := (run World outside).
Local Abbreviation ServeHTTP' :=
  (ServeHTTP lowerCase EqualFold uuid_Parse uuid_String time_Format).
Local Abbreviation serve' :=
  (serve lowerCase EqualFold uuid_Parse uuid_String time_Format World outside).
Local Abbreviation serveAll' :=
  (serveAll lowerCase EqualFold uuid_Parse uuid_String time_Format World outside).
Local Abbreviation createChirpHandler' :=
  (createChirpHandler lowerCase EqualFold uuid_Parse uuid_String time_Format).

Ltac run_handler :=
  unfold mret, mbind, Prog_ret, Prog_bind, call, trigger;
  repeat (cbn;
          match goal with
          | |- context [outside ?X ?o ?w] => destruct (outside X o w) as [? ?]
          | |- context [match ?x with _ => _ end] =>
            lazymatch x with
            | context [run] => fail
            | _ => destruct x
            end
          end).

(** X4. The length check of [createChirpHandler] counts bytes: for an
    envelope that decodes, the store is queried (once) exactly when the body
    has at most 140 bytes, whatever its number of characters. *)
Theorem createChirp_store_iff_within_limit r req hits w :
  Decode (storeCreateChirpRequest EqualFold uuid_Parse) (Request_Body r)
         {| CreateChirpRequest_Body := ""; CreateChirpRequest_UserID := uuid_Nil |}
    = (req, None) ->
  storeCalls (exec (createChirpHandler' r) hits w).2
  = if 140 <? len (CreateChirpRequest_Body req) then 0%nat else 1%nat.
Proof.
  intros Hdec. unfold createChirpHandler. rewrite Hdec.
  destruct (140 <? len (CreateChirpRequest_Body req)); [reflexivity |].
  generalize (cleanProfanity lowerCase (CreateChirpRequest_Body req)). intros cleaned.
  run_handler; reflexivity.
Qed.

(** X5. Creating a chirp, case by case: 400 without any effect when the
    envelope does not decode or the body is too long; otherwise an
    identifier and two instants are drawn, in that order, the store is given
    the moderated body with the user identifier of the request, and the
    answer is 201 with the JSON of the row the store returned, or 500 (after
    a log line) when the store failed. The counter is never touched. *)
Theorem createChirp_outcomes r hits w :
  let out := exec (createChirpHandler' r) hits w in
  match Decode (storeCreateChirpRequest EqualFold uuid_Parse) (Request_Body r)
               {| CreateChirpRequest_Body := ""; CreateChirpRequest_UserID := uuid_Nil |} with
  | (_, Some _) =>
    out = (respondWithError 400 "Invalid request payload", hits, w, [])
  | (req, None) =>
    if 140 <? len (CreateChirpRequest_Body req) then
      out = (respondWithError 400 "Chirp is too long", hits, w, [])
    else
      let '(id, w1) := outside _ uuid_New w in
      let '(createdAt, w2) := outside _ time_Now w1 in
      let '(updatedAt, w3) := outside _ time_Now w2 in
      let arg :=
        {| database.CreateChirpParams_ID := id;
           database.CreateChirpParams_CreatedAt := createdAt;
           database.CreateChirpParams_UpdatedAt := updatedAt;
           database.CreateChirpParams_Body :=
             cleanProfanity lowerCase (CreateChirpRequest_Body req);
           database.CreateChirpParams_UserID := CreateChirpRequest_UserID req |} in
      let calls := [Ev (Outside uuid_New); Ev (Outside time_Now); Ev (Outside time_Now);
                    Ev (Outside (CreateChirp arg))] in
      match outside _ (CreateChirp arg) w3 with
      | (Ok chirp, w4) =>
        out = ({| StatusCode := 201; ContentType := Some "application/json";
                  Body := JSONBody (JObject
                    [("id", JString (uuid_String (database.Chirp_ID chirp)));
                     ("created_at", JString (time_Format (database.Chirp_CreatedAt chirp)));
                     ("updated_at", JString (time_Format (database.Chirp_UpdatedAt chirp)));
                     ("body", JString (database.Chirp_Body chirp));
                     ("user_id", JString (uuid_String (database.Chirp_UserID chirp)))]) |},
               hits, w4, calls)
      | (Err e, w4) =>
        out = (respondWithError 500 "Error creating chirp", hits,
               (outside _ (log_Printf "Error creating chirp: %v" e) w4).2,
               calls ++ [Ev (Outside (log_Printf "Error creating chirp: %v" e))])
      end
  end.
Proof.
  cbv zeta. unfold createChirpHandler.
  destruct (Decode _ _ _) as [req [e|]]; [reflexivity |].
  destruct (140 <? len (CreateChirpRequest_Body req)); [reflexivity |].
  generalize (cleanProfanity lowerCase (CreateChirpRequest_Body req)). intros cleaned.
  cbn.
  destruct (outside _ uuid_New w) as [id w1].
  destruct (outside _ time_Now w1) as [createdAt w2].
  destruct (outside _ time_Now w2) as [updatedAt w3].
  destruct (outside _ (CreateChirp _) w3) as [[chirp|e] w4]; cbn; [reflexivity |].
  destruct (outside _ (log_Printf _ e) w4) as [[] w5]. reflexivity.
Qed.

(** X6. Listing the chirps: one store query; on success 200 with a JSON
    array that has one object per row, in the order of the rows (the empty
    array for no rows); on failure 500 after a log line. The counter is not
    touched. *)
Theorem getChirps_outcomes r hits w :
  let out := exec (getChirpsHandler uuid_String time_Format r) hits w in
  out.1.1.2 = hits
  /\ storeCalls out.2 = 1%nat
  /\ match outside _ GetChirps w with
     | (Ok chirps, w1) =>
       exists elems,
         out.1.1.1 = {| StatusCode := 200; ContentType := Some "application/json";
                        Body := JSONBody (JArray elems) |}
         /\ length elems = length chirps
         /\ (chirps = [] -> elems = [])
         /\ forall i row, chirps !! i = Some row ->
              elems !! i = Some (JObject
                [("id", JString (uuid_String (database.Chirp_ID row)));
                 ("created_at", JString (time_Format (database.Chirp_CreatedAt row)));
                 ("updated_at", JString (time_Format (database.Chirp_UpdatedAt row)));
                 ("body", JString (database.Chirp_Body row));
                 ("user_id", JString (uuid_String (database.Chirp_UserID row)))])
     | (Err _, w1) =>
       out.1.1.1 = respondWithError 500 "Error getting chirps"
     end.
Proof.
  cbv zeta. unfold getChirpsHandler. cbn.
  destruct (outside _ GetChirps w) as [[chirps|e] w1]; cbn.
  - split; [done |]. split; [done |].
    exists (marshalChirp uuid_String time_Format <$> (chirpOfRow <$> chirps)).
    split; [done |]. split; [by rewrite !length_fmap |].
    split; [by intros -> |].
    intros i row Hi. rewrite !list_lookup_fmap, Hi. reflexivity.
  - destruct (outside _ (log_Printf _ e) w1) as [[] w2]. done.
Qed.

(** X7. The reset in development mode: the counter is stored to zero first,
    [DeleteAllUsers] is then called once, and the answer is 200 with no body
    when it succeeds, 500 when it fails; the counter is zero either way. *)
Theorem adminReset_dev_outcomes r hits w :
  let out := exec (adminResetHandler "dev" r) hits w in
  out.1.1.2 = 0
  /\ out.2 = [Ev (Hits_Store 0); Ev (Outside DeleteAllUsers)]
  /\ out.1.2 = (outside _ DeleteAllUsers w).2
  /\ out.1.1.1
     = match (outside _ DeleteAllUsers w).1 with
       | None => {| StatusCode := 200; ContentType := None; Body := NoBody |}
       | Some _ => respondWithError 500 "Error deleting users"
       end.
Proof.
  cbv zeta. cbn. destruct (outside _ DeleteAllUsers w) as [[e|] w1]; done.
Qed.

(** The reset outside development mode leaves the state as it is. *)
Lemma serve_reset_forbidden cfg w r :
  isReset r = true -> platform cfg <> "dev" -> (serve' cfg w r).1.2 = cfg.
Proof.
  unfold isReset, serve, ServeHTTP. intros Hr Hne.
  destruct (Request_Pattern r); try discriminate. cbn [registered].
  unfold adminResetHandler.
  destruct (String.eqb_spec (platform cfg) "dev"); [done |]. cbn. by destruct cfg.
Qed.

Lemma serve_counterStep cfg w r :
  (serve' cfg w r).1.2
  = {| fileserverHits := counterStep (platform cfg) (fileserverHits cfg) r;
       platform := platform cfg |}.
Proof.
  unfold counterStep. destruct (instrumented r) eqn:Hi.
  - by apply serve_instrumented.
  - destruct (isReset r) eqn:Hr; cbn [andb].
    + destruct (String.eqb_spec (platform cfg) "dev") as [Hdev|Hne].
      * rewrite serve_reset_dev by done. by rewrite Hdev.
      * rewrite serve_reset_forbidden by done. by destruct cfg.
    + rewrite serve_other by done. by destruct cfg.
Qed.

(** X8. The hit counter after any sequence of requests depends on the
    routes of the requests and on the mode alone, not on the bodies, the
    store or the clock: it is the fold of [counterStep], and the mode never
    changes. *)
Theorem serveAll_counter cfg w reqs :
  (serveAll' cfg w reqs).1
  = {| fileserverHits := foldl (counterStep (platform cfg)) (fileserverHits cfg) reqs;
       platform := platform cfg |}.
Proof.
  revert cfg w. induction reqs as [|r reqs IH]; intros cfg w.
  - cbn. by destruct cfg.
  - cbn [serveAll foldl]. pose proof (serve_counterStep cfg w r) as Hs.
    destruct (serve' cfg w r) as [[resp cfg'] w']. cbn in Hs. subst cfg'.
    by rewrite IH.
Qed.

Lemma counterStep_range p h r :
  - 2 ^ 31 <= h < 2 ^ 31 -> - 2 ^ 31 <= counterStep p h r < 2 ^ 31.
Proof.
  intros Hh. unfold counterStep.
  destruct (instrumented r); [apply wrap32_range |].
  destruct (isReset r && String.eqb p "dev"); lia.
Qed.

Lemma foldl_counterStep_count p reqs : forall h,
  - 2 ^ 31 <= h < 2 ^ 31 ->
  forallb (fun r => negb (isReset r && String.eqb p "dev")) reqs = true ->
  foldl (counterStep p) h reqs = wrap32 (h + countInstrumented reqs).
Proof.
  induction reqs as [|r reqs IH]; intros h Hh Hall.
  - cbn. by rewrite Z.add_0_r, wrap32_small.
  - cbn [forallb] in Hall. apply andb_true_iff in Hall as [Hr Hall].
    apply negb_true_iff in Hr. cbn [foldl countInstrumented].
    rewrite IH by (by apply counterStep_range || done).
    unfold counterStep. rewrite Hr. destruct (instrumented r).
    + rewrite wrap32_add_l. f_equal. lia.
    + f_equal.
Qed.

(** X9. Outside development mode no request can reset the counter: from
    zero, after any sequence of requests (reset attempts among them) it is the
    number of instrumented requests, wrapped to 32 bits. *)
Theorem counter_never_reset_outside_dev cfg w reqs :
  platform cfg <> "dev" ->
  fileserverHits cfg = 0 ->
  fileserverHits (serveAll' cfg w reqs).1 = wrap32 (countInstrumented reqs).
Proof.
  intros Hne H0. rewrite serveAll_counter. cbn.
  rewrite foldl_counterStep_count, H0; [done | rewrite H0; lia |].
  apply forallb_forall. intros r _.
  destruct (String.eqb_spec (platform cfg) "dev"); [done |].
  by rewrite andb_false_r.
Qed.

(** X10. In development mode the counter counts the instrumented requests
    since the last reset: after any requests, a reset, and then requests
    without a reset, it is the number of instrumented requests among the
    latter, wrapped to 32 bits. *)
Theorem counter_counts_since_reset cfg w before r after :
  platform cfg = "dev" ->
  isReset r = true ->
  forallb (fun q => negb (isReset q)) after = true ->
  fileserverHits (serveAll' cfg w (before ++ r :: after)).1
  = wrap32 (countInstrumented after).
Proof.
  intros Hdev Hr Hafter. rewrite serveAll_counter. cbn.
  rewrite foldl_app. cbn [foldl].
  assert (Hi : instrumented r = false).
  { unfold instrumented, isReset in *. by destruct (Request_Pattern r). }
  unfold counterStep at 2. rewrite Hi, Hr, Hdev, String.eqb_refl. cbn [andb].
  rewrite foldl_counterStep_count; [done | lia |].
  apply forallb_forall. intros q Hq.
  pose proof (proj1 (forallb_forall _ _) Hafter q Hq) as Hn.
  apply negb_true_iff in Hn. by rewrite Hn.
Qed.

(** X11. No request makes more than one store query, whatever the route,
    the body and the answers of the store. *)
Theorem at_most_one_store_call cfg_platform r hits w :
  (storeCalls (exec (ServeHTTP' cfg_platform r) hits w).2 <= 1)%nat.
Proof.
  unfold ServeHTTP. destruct (Request_Pattern r); unfold registered.
  - cbn. lia.
  - unfold createChirpHandler. run_handler; cbn; lia.
  - unfold getChirpsHandler. run_handler; cbn; lia.
  - unfold getChirpByIDHandler. run_handler; cbn; lia.
  - cbn. lia.
  - unfold adminResetHandler. run_handler; cbn; lia.
  - unfold createUserHandler. run_handler; cbn; lia.
  - run_handler; cbn; lia.
  - run_handler; cbn; lia.
  - run_handler; cbn; lia.
Qed.

(** X12. A request answered by a handler of [main.go] gets one of the
    status codes 200, 201, 400, 403, 404, 500, and every answer from 400 on
    is a JSON object with the single member [error]. *)
Theorem own_handler_response_shape cfg_platform r hits w :
  ownHandler r = true ->
  let resp := (exec (ServeHTTP' cfg_platform r) hits w).1.1.1 in
  In (StatusCode resp) knownStatus
  /\ (400 <= StatusCode resp ->
      exists msg, resp = {| StatusCode := StatusCode resp;
                            ContentType := Some "application/json";
                            Body := JSONBody (JObject [("error", JString msg)]) |}).
Proof.
  unfold ownHandler, ServeHTTP. intros Hown.
  destruct (Request_Pattern r); try discriminate; unfold registered.
  all: unfold healthzHandler, createChirpHandler, getChirpsHandler, getChirpByIDHandler,
         adminMetricsHandler, adminResetHandler, createUserHandler.
  all: run_handler.
  all: unfold StatusOK, StatusCreated, StatusBadRequest, StatusForbidden,
         StatusNotFound, StatusInternalServerError; cbn.
  all: split; [tauto | intros; first [lia | eexists; reflexivity]].
Qed.

(** X16. Creating a user never touches the counter; an envelope that does
    not decode causes no effect at all, and one that decodes causes exactly
    four outside calls, in this order: a fresh identifier, two readings of
    the clock, and [CreateUser] with these values and the decoded email,
    which is not moderated. *)
Theorem createUser_effects r hits w :
  let out := exec (createUserHandler EqualFold uuid_String time_Format r) hits w in
  out.1.1.2 = hits
  /\ if userEnvelopeAccepted EqualFold (Request_Body r) then
       let email :=
         UserRequest_Email
           (Decode (storeUserRequest EqualFold) (Request_Body r)
                   {| UserRequest_Email := "" |}).1 in
       let '(id, w1) := outside _ uuid_New w in
       let '(createdAt, w2) := outside _ time_Now w1 in
       let '(updatedAt, w3) := outside _ time_Now w2 in
       let arg := {| database.CreateUserParams_ID := id;
                     database.CreateUserParams_Email := email;
                     database.CreateUserParams_CreatedAt := createdAt;
                     database.CreateUserParams_UpdatedAt := updatedAt |} in
       out.2 = [Ev (Outside uuid_New); Ev (Outside time_Now); Ev (Outside time_Now);
                Ev (Outside (CreateUser arg))]
       /\ out.1.2 = (outside _ (CreateUser arg) w3).2
     else out.2 = [] /\ out.1.2 = w.
Proof.
  cbv zeta. unfold createUserHandler.
  pose proof (Decode_UserRequest_accepted EqualFold (Request_Body r)
                {| UserRequest_Email := "" |}) as Hacc.
  destruct (Decode (storeUserRequest EqualFold) (Request_Body r)
                   {| UserRequest_Email := "" |}) as [userReq err].
  cbn [fst snd] in *.
  destruct (userEnvelopeAccepted EqualFold (Request_Body r)).
  - assert (err = None) as -> by (by apply Hacc).
    cbn.
    destruct (outside _ uuid_New w) as [id w1].
    destruct (outside _ time_Now w1) as [createdAt w2].
    destruct (outside _ time_Now w2) as [updatedAt w3].
    destruct (outside _ (CreateUser _) w3) as [[dbUser|e] w4]; done.
  - destruct err as [e|]; [done |].
    destruct Hacc as [Hacc _]. by specialize (Hacc eq_refl).
Qed.

(** X13. The validation endpoint of the earlier revision performs no effect
    at all, answers 200 or 400, and answers 200 exactly when the envelope
    decodes to a body of at most 140 bytes. *)
Theorem validateChirp_effect_free r :
  exists resp,
    validateChirpHandler lowerCase EqualFold r = Ret resp
    /\ (StatusCode resp = 200 \/ StatusCode resp = 400)
    /\ (StatusCode resp = 200
        <-> exists chirp,
              Decode (storeChirpRequest EqualFold) (Request_Body r)
                     {| ChirpRequest_Body := "" |} = (chirp, None)
              /\ len (ChirpRequest_Body chirp) <= 140).
Proof.
  unfold validateChirpHandler.
  destruct (Decode (storeChirpRequest EqualFold) (Request_Body r)
                   {| ChirpRequest_Body := "" |}) as [chirp [e|]].
  - eexists. split; [reflexivity |]. split; [by right |].
    split; [discriminate | intros (c & [=] & _)].
  - destruct (Z.ltb_spec 140 (len (ChirpRequest_Body chirp))).
    + eexists. split; [reflexivity |]. split; [by right |].
      split; [discriminate | intros (c & [= <-] & Hc); lia].
    + eexists. split; [reflexivity |]. split; [by left |].
      split; [intros _; by exists chirp | done].
Qed.

(** X14. What the validation endpoint returns as [cleaned_body] has at most
    140 bytes and no denylisted token, and sending it back as the body of a
    new request gives the same answer again. *)
Theorem validateChirp_resubmit r r' cleaned :
  validateChirpHandler lowerCase EqualFold r
    = Ret (respondWithJSON 200 (JObject [("cleaned_body", JString cleaned)])) ->
  Request_Body r' = BodyJSON (JObject [("body", JString cleaned)]) ->
  validateChirpHandler lowerCase EqualFold r' = validateChirpHandler lowerCase EqualFold r
  /\ len cleaned <= 140
  /\ Forall (fun tok => GoStrings.ToLower lowerCase tok ∉ profaneWords)
            (GoStrings.Split cleaned " ").
Proof.
  intros Hr Hbody. rewrite Hr. revert Hr. unfold validateChirpHandler.
  destruct (Decode (storeChirpRequest EqualFold) (Request_Body r)
                   {| ChirpRequest_Body := "" |}) as [chirp [e|]]; [discriminate |].
  destruct (Z.ltb_spec 140 (len (ChirpRequest_Body chirp))) as [|Hle]; [discriminate |].
  intros [= <-].
  pose proof (length_cleanProfanity lowerCase (ChirpRequest_Body chirp)) as Hlen.
  assert (Hc : len (cleanProfanity lowerCase (ChirpRequest_Body chirp)) <= 140)
    by (unfold len in *; lia).
  split; [| split; [exact Hc | apply Split_cleanProfanity_clean]].
  rewrite Hbody. cbn.
  destruct (Z.ltb_spec 140 (len (cleanProfanity lowerCase (ChirpRequest_Body chirp))));
    [lia |].
  by rewrite cleanProfanity_twice.
Qed.

End HandlerMore.

(** ** The further properties on concrete inputs *)

Lemma metricsPage_distinct_witness : metricsPage 1 <> metricsPage 2.
Proof. apply metricsPage_distinct. discriminate. Defined.

(** A body of 71 characters in 142 bytes is refused. *)
Lemma createChirp_store_iff_within_limit_witness :
  storeCalls
    (run Sample.World Sample.outside
         (createChirpHandler Sample.lowerCase Sample.EqualFold Sample.uuid_Parse
                             Sample.uuid_String Sample.time_Format
                             (Scenario.chirpWith Scenario.accentedBody))
         0 Sample.emptyWorld).2
  = 0%nat
  /\ Utf8.RuneCountInString Scenario.accentedBody = 71.
Proof.
  split; [| vm_compute; reflexivity].
  refine (createChirp_store_iff_within_limit
            Sample.lowerCase Sample.EqualFold Sample.uuid_Parse Sample.uuid_String
            Sample.time_Format Sample.World Sample.outside
            (Scenario.chirpWith Scenario.accentedBody)
            {| CreateChirpRequest_Body := Scenario.accentedBody;
               CreateChirpRequest_UserID := uuid_Nil |} 0 Sample.emptyWorld _).
  vm_compute. reflexivity.
Defined.

Lemma counter_never_reset_outside_dev_witness :
  fileserverHits
    (serveAll Sample.lowerCase Sample.EqualFold Sample.uuid_Parse Sample.uuid_String
              Sample.time_Format Sample.World Sample.outside
              Scenario.prodConfig Sample.emptyWorld
              [Sample.appRequest; Scenario.resetRequest; Sample.appRequest]).1
  = wrap32 (countInstrumented
              [Sample.appRequest; Scenario.resetRequest; Sample.appRequest]).
Proof.
  apply counter_never_reset_outside_dev; [discriminate | reflexivity].
Defined.

Lemma counter_counts_since_reset_witness :
  fileserverHits
    (serveAll Sample.lowerCase Sample.EqualFold Sample.uuid_Parse Sample.uuid_String
              Sample.time_Format Sample.World Sample.outside
              Sample.devConfig Sample.emptyWorld
              ([Sample.appRequest; Sample.appRequest]
               ++ Scenario.resetRequest :: [Sample.appRequest])).1
  = wrap32 (countInstrumented [Sample.appRequest]).
Proof.
  apply counter_counts_since_reset; reflexivity.
Defined.

Lemma own_handler_response_shape_witness :
  In (StatusCode
        (run Sample.World Sample.outside
             (ServeHTTP Sample.lowerCase Sample.EqualFold Sample.uuid_Parse
                        Sample.uuid_String Sample.time_Format "dev"
                        (Sample.request POST_api_users "/api/users" BodyEmpty))
             0 Sample.emptyWorld).1.1.1)
     knownStatus.
Proof.
  refine (proj1 (own_handler_response_shape
            Sample.lowerCase Sample.EqualFold Sample.uuid_Parse Sample.uuid_String
            Sample.time_Format Sample.World Sample.outside "dev"
            (Sample.request POST_api_users "/api/users" BodyEmpty)
            0 Sample.emptyWorld _)).
  reflexivity.
Defined.

Lemma validateChirp_resubmit_witness :
  validateChirpHandler Sample.lowerCase Sample.EqualFold
    (Scenario.validateWith "This is a **** opinion I need to share")
  = validateChirpHandler Sample.lowerCase Sample.EqualFold
      (Scenario.validateWith "This is a kerfuffle opinion I need to share").
Proof.
  refine (proj1 (validateChirp_resubmit Sample.lowerCase Sample.EqualFold
            (Scenario.validateWith "This is a kerfuffle opinion I need to share")
            (Scenario.validateWith "This is a **** opinion I need to share")
            "This is a **** opinion I need to share" _ _)).
  - vm_compute. reflexivity.
  - reflexivity.
Defined.
